(** * DomManager: the DOM facade of the yay-filter browser extension

    A shallow embedding of [src/dom/DomManager.ts] and of the part of the
    browser's DOM it talks to, followed by the properties of the lookup
    contract, of the comment-container discovery loop and of the two
    mutation utilities.

    Conventions.
    - The host page is a finite tree of nodes.  An element handle is the
      path of child indices that leads from the document element to it, so
      two handles are equal exactly when they denote the same element.
    - The selector engine ([querySelector], [querySelectorAll]) belongs to
      the browser; it is an interface ([SelectorEngine]) the development is
      parametric in.  [Config] is not part of the sources either and is a
      parameter as well.
    - A method that may throw returns a [Result]; a builder, which can only
      fail in [document.createElement], returns a [Created].  Which names
      [createElement] accepts is the browser's affair ([ElementFactory]);
      [chrome.i18n.getMessage] and the icon that [DOMParser] delivers are
      parameters of the builder that uses them.
    - [timeout] and [delay] are whole numbers of milliseconds ([Z]).  The
      code computes with JavaScript numbers (binary64), which hold every
      integer up to [2^53] in absolute value and subtract such integers
      without rounding as long as the difference stays in that range
      ([safeInteger]).  The integer arithmetic of the embedding is the
      code's within that range and not beyond it; a property that rests on
      the value of a budget says so in its hypotheses. *)

From Equations Require Import Equations.
From stdpp Require Import base option list strings.
From Stdlib Require Import ZArith Lia Ascii.

Local Open Scope Z_scope.
Local Open Scope nat_scope.

(** ** Nodes *)

(** The three kinds of node an element can have as a child.  An element
    carries its tag name, its attributes and its ordered child list. *)
Inductive Node : Type :=
| Text (data : string)
| Comment (data : string)
| ElementNode (e : HTMLElement)
with HTMLElement : Type :=
| mkElement (tagName : string) (attributes : list (string * string))
            (childNodes : list Node).

Definition tagName (e : HTMLElement) : string :=
  match e with mkElement t _ _ => t end.

Definition attributes (e : HTMLElement) : list (string * string) :=
  match e with mkElement _ a _ => a end.

Definition childNodes (e : HTMLElement) : list Node :=
  match e with mkElement _ _ kids => kids end.

(** The element with its child list replaced; tag and attributes stay. *)
Definition withChildNodes (e : HTMLElement) (kids : list Node) : HTMLElement :=
  mkElement (tagName e) (attributes e) kids.

(** [node.nodeValue]: the data of a text or comment node, [null] for an
    element. *)
Definition nodeValue (n : Node) : option string :=
  match n with
  | Text d => Some d
  | Comment d => Some d
  | ElementNode _ => None
  end.

(** [node.nodeValue = v]: replaces the data of a text or comment node; the
    DOM defines the setter to do nothing on an element. *)
Definition setNodeValue (n : Node) (v : string) : Node :=
  match n with
  | Text _ => Text v
  | Comment _ => Comment v
  | ElementNode e => ElementNode e
  end.

Definition isText (n : Node) : bool :=
  match n with Text _ => true | _ => false end.

(** The text of all [Text] descendants in tree order (comments excluded). *)
Fixpoint descendantText (n : Node) : string :=
  match n with
  | Text d => d
  | Comment _ => ""
  | ElementNode (mkElement _ _ kids) =>
      (fix go (ks : list Node) : string :=
         match ks with
         | [] => ""
         | k :: ks' => descendantText k +:+ go ks'
         end) kids
  end.

(** [node.textContent], typed [string | null] by the DOM: the data of a text
    or comment node, the descendant text of an element.  ([null] is what a
    document node answers, which no handle of this model denotes.) *)
Definition textContent (n : Node) : option string :=
  match n with
  | Text d => Some d
  | Comment d => Some d
  | ElementNode _ => Some (descendantText n)
  end.

(** [document.createTextNode(text)]. *)
Definition createTextNode (text : string) : Node := Text text.

(** [elem.appendChild(child)] for a child that is not yet in the tree. *)
Definition appendChild (elem : HTMLElement) (child : Node) : HTMLElement :=
  withChildNodes elem (childNodes elem ++ [child]).

(** [elem.lastChild]. *)
Definition lastChild (elem : HTMLElement) : option Node :=
  last (childNodes elem).

(** [elem.removeChild(elem.lastChild)]: the child list loses its last entry. *)
Definition removeLastChild (elem : HTMLElement) : HTMLElement :=
  withChildNodes elem (removelast (childNodes elem)).

(** The number of children that are not text nodes. *)
Definition nonTextCount (elem : HTMLElement) : nat :=
  length (filter (fun n => isText n = false) (childNodes elem)).

Definition inspect {A : Type} (a : A) : {b : A | a = b} := exist _ a eq_refl.

Lemma removeLastChild_shrinks (elem : HTMLElement) (c : Node) :
  lastChild elem = Some c ->
  length (childNodes (removeLastChild elem)) < length (childNodes elem).
Proof.
  destruct elem as [t a kids]; unfold lastChild, removeLastChild; simpl.
  destruct kids as [|k kids] using rev_ind; [discriminate|].
  intros _. rewrite removelast_last, length_app. simpl. lia.
Qed.

(** ** Handles and tree order *)

(** An element handle: the child indices from the document element down. *)
Definition Path : Type := list nat.

Record Document : Type := mkDocument { documentElement : HTMLElement }.

Fixpoint nodeAt (n : Node) (p : Path) : option Node :=
  match p with
  | [] => Some n
  | i :: p' =>
      match n with
      | ElementNode e =>
          match childNodes e !! i with
          | Some child => nodeAt child p'
          | None => None
          end
      | _ => None
      end
  end.

Definition root (document : Document) : Node :=
  ElementNode (documentElement document).

Definition elementAt (document : Document) (p : Path) : option HTMLElement :=
  match nodeAt (root document) p with
  | Some (ElementNode e) => Some e
  | _ => None
  end.

(** The elements of the tree under [n], [n] included, in tree order (each
    before its descendants, siblings left to right), as paths from [n]. *)
Fixpoint elementPaths (n : Node) : list Path :=
  match n with
  | ElementNode (mkElement _ _ kids) =>
      [] :: (fix go (i : nat) (ks : list Node) : list Path :=
               match ks with
               | [] => []
               | k :: ks' => ((i ::.) <$> elementPaths k) ++ go (S i) ks'
               end) 0 kids
  | _ => []
  end.

(** What a query on the document ranges over: every element of the page. *)
Definition documentElements (document : Document) : list Path :=
  elementPaths (root document).

(** What a query on an element ranges over: its descendants, itself
    excluded. *)
Definition descendantElements (document : Document) (ancestor : Path) : list Path :=
  match nodeAt (root document) ancestor with
  | Some n => (ancestor ++.) <$> tail (elementPaths n)
  | None => []
  end.

Definition getAttribute (e : HTMLElement) (name : string) : option string :=
  snd <$> head (filter (fun kv => kv.1 = name) (attributes e)).

(** The element at [p] has the ID [id] (an empty attribute value is no ID). *)
Definition hasId (id : string) (document : Document) (p : Path) : bool :=
  match elementAt document p with
  | Some e =>
      match getAttribute e "id" with
      | Some v => bool_decide (v = id) && negb (bool_decide (id = ""))
      | None => false
      end
  | None => false
  end.

Definition hasTag (tag : string) (document : Document) (p : Path) : bool :=
  match elementAt document p with
  | Some e => bool_decide (tagName e = tag)
  | None => false
  end.

Definition textContentAt (document : Document) (p : Path) : option string :=
  match nodeAt (root document) p with
  | Some n => textContent n
  | None => None
  end.

(** ** Exceptions *)

(** What the code under study can raise: the [Error] that
    [getElementByQuery] constructs, and the [SyntaxError] with which the
    browser rejects a selector it cannot parse. *)
Inductive Exception : Type :=
| Error (message : string)
| SyntaxError (selector : string).

Inductive Result (A : Type) : Type :=
| Ok (value : A)
| Throw (exn : Exception).
Arguments Ok {A} value.
Arguments Throw {A} exn.

#[global] Instance Result_ret : MRet Result := @Ok.
#[global] Instance Result_bind : MBind Result :=
  fun A B f m => match m with Ok a => f a | Throw e => Throw e end.

Definition throws {A : Type} (r : Result A) : bool :=
  match r with Ok _ => false | Throw _ => true end.

(** ** The browser's Selectors API *)

(** The selector engine of the host browser: which strings it accepts as
    selectors, and which elements of a page an accepted selector matches. *)
Class SelectorEngine : Type := mkSelectorEngine {
  validSelector : string -> bool;
  matchesSelector : string -> Document -> Path -> bool }.

(** The engine reads [#id] as the ID selector for [id], as CSS prescribes
    when [id] is an identifier. *)
Definition idSelector (engine : SelectorEngine) (id : string) : Prop :=
  validSelector ("#" +:+ id) = true /\
  forall document p, matchesSelector ("#" +:+ id) document p = hasId id document p.

Section Selectors.
Context {engine : SelectorEngine}.

Definition selectAll (document : Document) (scope : list Path) (query : string)
  : Result (list Path) :=
  if validSelector query then
    Ok (filter (fun p => matchesSelector query document p = true) scope)
  else Throw (SyntaxError query).

(** [document.querySelectorAll(query)]. *)
Definition document_querySelectorAll (document : Document) (query : string)
  : Result (list Path) :=
  selectAll document (documentElements document) query.

(** [document.querySelector(query)]: the first match in tree order. *)
Definition document_querySelector (document : Document) (query : string)
  : Result (option Path) :=
  all ← document_querySelectorAll document query; mret (head all).

(** [ancestor.querySelectorAll(query)]. *)
Definition element_querySelectorAll (document : Document) (ancestor : Path)
  (query : string) : Result (list Path) :=
  selectAll document (descendantElements document ancestor) query.

(** [ancestor.querySelector(query)]. *)
Definition element_querySelector (document : Document) (ancestor : Path)
  (query : string) : Result (option Path) :=
  all ← element_querySelectorAll document ancestor query; mret (head all).

(** The matches of [query] in the scope a lookup with the optional
    [ancestor] searches: the page, or the descendants of [ancestor]. *)
Definition matchesIn (document : Document) (ancestor : option Path)
  (query : string) : Result (list Path) :=
  match ancestor with
  | None => document_querySelectorAll document query
  | Some ancestor => element_querySelectorAll document ancestor query
  end.

End Selectors.

(** The exception of a lookup that must succeed and does not: a JavaScript
    [Error] whose message ends with the query. *)
Definition notFound (query : string) : Exception :=
  Error ("Element not found: " +:+ query).

(** [document.getElementById(id)]: the first element in tree order whose ID
    is [id]; it parses no selector and never throws. *)
Definition document_getElementById (document : Document) (id : string)
  : option Path :=
  head (filter (fun p => hasId id document p = true) (documentElements document)).

(** ** Configuration *)

(** The shape of [Config] as [DomManager] reads it; the values are those of
    [src/Config.ts], a parameter here. *)
Module Config.
Record Id : Type := mkId {
  yayFilterContainer : string;
  yayFilterStatus : string;
  yayFilterInfo : string }.
Record Selector : Type := mkSelector {
  ytCommentContainer : string;
  ytCommentTitle : string;
  ytCommentThread : string;
  ytCommentContents : string;
  ytCommentText : string;
  ytCommentSortItems : string }.
Record Dom : Type := mkDom { id : Id; selector : Selector }.
Record t : Type := mk { dom : Dom }.
End Config.

(** ** The event loop as one discovery session sees it *)

(** A pending timer: the closure
    [() => this.withCommentContainer(callback, timeout, delay)] that
    [window.setTimeout] is to run after [ms] milliseconds. *)
Record Timer : Type := mkTimer { timerTimeout : Z; timerDelay : Z; ms : Z }.

(** What a session does that the outside can observe: a lookup of the
    comment container with its answer, and a call of the caller's
    callback with its argument. *)
Inductive Event : Type :=
| Lookup (answer : Result (option Path))
| Callback (elem : option Path).

Record Session : Type := mkSession { trace : list Event; timers : list Timer }.

Definition newSession : Session := mkSession [] [].

(** A piece of code running inside one turn of the event loop: it may
    extend the trace, arm timers, and end by throwing. *)
Definition Task (A : Type) : Type := Session -> Result A * Session.

#[global] Instance Task_ret : MRet Task := fun A a s => (Ok a, s).
#[global] Instance Task_bind : MBind Task :=
  fun A B f m s =>
    match m s with
    | (Ok a, s') => f a s'
    | (Throw e, s') => (Throw e, s')
    end.

Definition emit (ev : Event) : Task unit :=
  fun s => (Ok tt, mkSession (trace s ++ [ev]) (timers s)).

(** [callback(elem)]. *)
Definition callback (elem : option Path) : Task unit := emit (Callback elem).

(** [window.setTimeout(handler, ms)]. *)
Definition setTimeout (handler : Timer) : Task unit :=
  fun s => (Ok tt, mkSession (trace s) (timers s ++ [handler])).

(** Runs a lookup inside a task: the attempt is recorded, and an
    exception of the lookup ends the task. *)
Definition attempt (lookup : Result (option Path)) : Task (option Path) :=
  fun s => (lookup, mkSession (trace s ++ [Lookup lookup]) (timers s)).

(** The arguments of the callback's calls, in order. *)
Definition callbackArgs (events : list Event) : list (option Path) :=
  omap (fun ev => match ev with Callback elem => Some elem | Lookup _ => None end)
       events.

Definition isLookup (ev : Event) : bool :=
  match ev with Lookup _ => true | Callback _ => false end.

Definition lookupCount (events : list Event) : nat :=
  length (filter (fun ev => isLookup ev = true) events).

Definition callbacks (s : Session) : list (option Path) := callbackArgs (trace s).

(** The number of lookup attempts a session has made. *)
Definition lookups (s : Session) : nat := lookupCount (trace s).

(** What a run starts with: the call [callback(null)] when its budget is
    used up. *)
Definition expired (timeout : Z) : list Event :=
  if (timeout <=? 0)%Z then [Callback None] else [].

(** The events of [n] successive runs that find no container, the first
    with the budget [timeout]. *)
Fixpoint absentTrace (timeout delay : Z) (n : nat) : list Event :=
  match n with
  | O => []
  | S n' => expired timeout ++ Lookup (Ok None) :: absentTrace (timeout - delay) delay n'
  end.

(** The ceiling of [t / d] for a positive [d]. *)
Definition ceilDiv (t d : Z) : Z := (t + d - 1) / d.

(** An integer that a JavaScript number holds exactly, together with all
    integers between it and zero. *)
Definition safeInteger (z : Z) : Prop := (- 2 ^ 53 <= z <= 2 ^ 53)%Z.

(** ** Creating elements *)

(** [document.createElement] belongs to the browser: it accepts the strings
    that are valid element names and throws an [InvalidCharacterError] on
    the others. *)
Class ElementFactory : Type := mkElementFactory { validName : string -> bool }.

Inductive Created (A : Type) : Type :=
| Made (value : A)
| InvalidCharacterError (name : string).
Arguments Made {A} value.
Arguments InvalidCharacterError {A} name.

#[global] Instance Created_ret : MRet Created := @Made.
#[global] Instance Created_bind : MBind Created :=
  fun A B f m =>
    match m with
    | Made a => f a
    | InvalidCharacterError name => InvalidCharacterError name
    end.

Definition lowerAscii (c : ascii) : ascii :=
  let n := nat_of_ascii c in
  if Nat.leb 65 n && Nat.leb n 90 then ascii_of_nat (n + 32) else c.

(** ASCII lowercase, as an HTML document applies it to the name given to
    [createElement]. *)
Fixpoint lowercase (s : string) : string :=
  match s with
  | EmptyString => EmptyString
  | String c s' => String (lowerAscii c) (lowercase s')
  end.

(** [document.createElement(tagName)] in an HTML document: a new element
    without attributes or children. *)
Definition createElement {factory : ElementFactory} (tagName : string)
  : Created HTMLElement :=
  if validName tagName then Made (mkElement (lowercase tagName) [] [])
  else InvalidCharacterError tagName.

(** [elem.setAttribute(name, value)] for a lowercase [name]; it is also what
    assigning a reflecting property ([id], [className], [href], [target],
    [htmlFor], [type], [value] of an option) does to the attribute. *)
Definition setAttribute (elem : HTMLElement) (name value : string) : HTMLElement :=
  mkElement (tagName elem)
    (if bool_decide (name ∈ (attributes elem).*1) then
       (fun kv : string * string => if bool_decide (kv.1 = name) then (name, value) else kv)
         <$> attributes elem
     else attributes elem ++ [(name, value)])
    (childNodes elem).

(** A registration [target.addEventListener(eventType, handler, useCapture)]
    on the element at [target] of a fragment; the handler is the caller's. *)
Record Listener : Type :=
  mkListener { target : Path; eventType : string; useCapture : bool }.

(** What [createYayFilterContainer] hands back: the container, and the
    status and info elements as handles into it, with the listener it has
    registered. *)
Record FilterContainer : Type := mkFilterContainer {
  container : HTMLElement;
  filterStatus : Path;
  filterInfo : Path;
  containerListeners : list Listener }.

(** What [createCheckbox] hands back: the input with its checkedness and
    its listener, and the label. *)
Record Checkbox : Type := mkCheckbox {
  checkbox : HTMLElement;
  checked : bool;
  checkboxListeners : list Listener;
  label : HTMLElement }.

(** ** [DomManager] *)

Module DomManager.

Section WithBrowser.
Context {engine : SelectorEngine} (Config : Config.t).

(** [getElementByQuery(query, ancestor = null)], lines 12-16. *)
Definition getElementByQuery (document : Document) (query : string)
  (ancestor : option Path) : Result Path :=
  elem ← match ancestor with
         | None => document_querySelector document query
         | Some ancestor => element_querySelector document ancestor query
         end;
  match elem with
  | None => Throw (Error ("Element not found: " +:+ query))
  | Some elem => Ok elem
  end.

(** [getElementById(id)], lines 22-24. *)
Definition getElementById (document : Document) (id : string) : Result Path :=
  getElementByQuery document ("#" +:+ id) None.

(** [findCommentContainer()], lines 30-32. *)
Definition findCommentContainer (document : Document) : Result (option Path) :=
  document_querySelector document
    Config.(Config.dom).(Config.selector).(Config.ytCommentContainer).

(** [withCommentContainer(callback, timeout, delay)], lines 40-53: what one
    run of the method does on the page as it is at that moment.  The
    callback is the session's; the branch for [timeout <= 0] is followed by
    the lookup, as in the source. *)
Definition withCommentContainer (document : Document) (timeout delay : Z)
  : Task unit :=
  (if (timeout <=? 0)%Z then callback None else mret tt);;
  elem ← attempt (findCommentContainer document);
  match elem with
  | None => setTimeout (mkTimer (timeout - delay) delay delay)
  | Some elem => callback (Some elem)
  end.

(** The defaults of [timeout] and [delay]. *)
Definition defaultTimeout : Z := 30000.
Definition defaultDelay : Z := 200.

(** [findCommentHeader()], lines 59-61. *)
Definition findCommentHeader (document : Document) : Result (option Path) :=
  document_querySelector document
    Config.(Config.dom).(Config.selector).(Config.ytCommentTitle).

(** [findYayFilterContainer()], lines 67-69. *)
Definition findYayFilterContainer (document : Document) : Result (option Path) :=
  Ok (document_getElementById document
        Config.(Config.dom).(Config.id).(Config.yayFilterContainer)).

(** [getYayFilterContainer()], lines 75-77. *)
Definition getYayFilterContainer (document : Document) : Result Path :=
  getElementById document Config.(Config.dom).(Config.id).(Config.yayFilterContainer).

(** [findYayFilterStatus()], lines 83-85. *)
Definition findYayFilterStatus (document : Document) : Result (option Path) :=
  Ok (document_getElementById document
        Config.(Config.dom).(Config.id).(Config.yayFilterStatus)).

(** [findYayFilterInfo()], lines 91-93. *)
Definition findYayFilterInfo (document : Document) : Result (option Path) :=
  Ok (document_getElementById document
        Config.(Config.dom).(Config.id).(Config.yayFilterInfo)).

(** [findCommentThreads()], lines 99-101. *)
Definition findCommentThreads (document : Document) : Result (list Path) :=
  document_querySelectorAll document
    Config.(Config.dom).(Config.selector).(Config.ytCommentThread).

(** [getCommentThreadContainer()], lines 107-109. *)
Definition getCommentThreadContainer (document : Document) : Result Path :=
  getElementByQuery document
    Config.(Config.dom).(Config.selector).(Config.ytCommentContents) None.

(** [fetchTextContent(thread)], lines 117-121. *)
Definition fetchTextContent (document : Document) (thread : Path) : Result string :=
  text ← element_querySelector document thread
           Config.(Config.dom).(Config.selector).(Config.ytCommentText);
  match text with
  | None => Ok ""
  | Some text =>
      match textContentAt document text with
      | None => Ok ""
      | Some content => Ok content
      end
  end.

(** [findSortItems()], lines 127-129. *)
Definition findSortItems (document : Document) : Result (list Path) :=
  document_querySelectorAll document
    Config.(Config.dom).(Config.selector).(Config.ytCommentSortItems).

(** The timers of a session fire one after the other; [page n] is the page
    as the [n]-th run of [withCommentContainer] finds it (run 0 is the
    caller's own call).  [eventLoop] lets up to [fuel] timers fire. *)
Fixpoint eventLoop (page : nat -> Document) (run : nat) (fuel : nat)
  (s : Session) : Session :=
  match fuel with
  | O => s
  | S fuel' =>
      match timers s with
      | [] => s
      | handler :: pending =>
          eventLoop page (S run) fuel'
            (withCommentContainer (page run) (timerTimeout handler)
               (timerDelay handler) (mkSession (trace s) pending)).2
      end
  end.

(** A discovery session: the caller's call, then up to [fuel] timers. *)
Definition discovery (page : nat -> Document) (timeout delay : Z) (fuel : nat)
  : Session :=
  eventLoop page 1 fuel (withCommentContainer (page 0) timeout delay newSession).2.

(** The container is found for the first time by run [k], as [elem]. *)
Definition firstFoundAt (page : nat -> Document) (k : nat) (elem : Path) : Prop :=
  (forall i, i < k -> findCommentContainer (page i) = Ok None) /\
  findCommentContainer (page k) = Ok (Some elem).

(** No run ever finds the container. *)
Definition absentThroughout (page : nat -> Document) : Prop :=
  forall i, findCommentContainer (page i) = Ok None.

End WithBrowser.


(** [replaceText(elem, text)], lines 291-297:
    an element without children gets a new text node appended; otherwise
    the [nodeValue] of [childNodes[0]] is assigned. *)
Definition replaceText (elem : HTMLElement) (text : string) : HTMLElement :=
  if Nat.eqb (length (childNodes elem)) 0 then
    appendChild elem (createTextNode text)
  else
    match childNodes elem !! 0 with
    | Some first =>
        withChildNodes elem (<[0 := setNodeValue first text]> (childNodes elem))
    | None => elem
    end.

(** [clearChildElements(element)], lines 303-305:
    [while (element.lastChild) element.removeChild(element.lastChild)]. *)
Equations? clearChildElements (element : HTMLElement) : HTMLElement
  by wf (length (childNodes element)) lt :=
  clearChildElements element with inspect (lastChild element) => {
    | exist _ (Some c) H => clearChildElements (removeLastChild element);
    | exist _ None _ => element }.
Proof. eapply removeLastChild_shrinks; eassumption. Qed.

Section Builders.
Context {factory : ElementFactory} (Config : Config.t).

(** [chrome.i18n.getMessage], and the document element of what [DOMParser]
    makes of [Config.dom.svg.filterIcon]. *)
Context (getMessage : string -> string) (filterIcon : HTMLElement).

(** [createElementWithText(tagName, text)], lines 204-208. *)
Definition createElementWithText (tagName text : string) : Created HTMLElement :=
  ret ← createElement tagName;
  mret (appendChild ret (createTextNode text)).

(** [createYayFilterContainer(onClick)], lines 140-165. *)
Definition createYayFilterContainer : Created FilterContainer :=
  span ← createElement "span";
  let span := setAttribute span "id"
                Config.(Config.dom).(Config.id).(Config.yayFilterContainer) in
  tooltip ← createElementWithText "paper-tooltip" (getMessage "filter_comments");
  let tooltip := setAttribute tooltip "class" "style-scope" in
  let tooltip := setAttribute tooltip "role" "tooltip" in
  let span := appendChild span (ElementNode tooltip) in
  div ← createElement "div";
  let div := appendChild div (ElementNode filterIcon) in
  text ← createElementWithText "span" (getMessage "filter");
  let div := appendChild div (ElementNode text) in
  filterStatus ← createElement "span";
  let filterStatus := setAttribute filterStatus "id"
                        Config.(Config.dom).(Config.id).(Config.yayFilterStatus) in
  let div := appendChild div (ElementNode filterStatus) in
  filterInfo ← createElement "span";
  let filterInfo := setAttribute filterInfo "id"
                      Config.(Config.dom).(Config.id).(Config.yayFilterInfo) in
  let div := appendChild div (ElementNode filterInfo) in
  let span := appendChild span (ElementNode div) in
  mret (mkFilterContainer span [1; 2] [1; 3] [mkListener [1] "click" false]).

(** [createCheckbox(id, checked, text, onChanged)], lines 179-196. *)
Definition createCheckbox (id : string) (checked : bool) (text : string)
  : Created Checkbox :=
  checkbox ← createElement "input";
  let checkbox := setAttribute checkbox "type" "checkbox" in
  let checkbox := setAttribute checkbox "id" id in
  label ← createElement "label";
  let label := setAttribute label "for" (default "" (getAttribute checkbox "id")) in
  let label := appendChild label (createTextNode text) in
  mret (mkCheckbox checkbox checked [mkListener [] "change" false] label).

(** [createAnchor(href, text, target = '_blank')], lines 217-223. *)
Definition createAnchor (href text : string) (target : option string)
  : Created HTMLElement :=
  anchor ← createElement "a";
  let anchor := setAttribute anchor "href" href in
  let anchor := setAttribute anchor "target" (default "_blank" target) in
  mret (appendChild anchor (createTextNode text)).

(** [createOption(value, text)], lines 231-235. *)
Definition createOption (value text : string) : Created HTMLElement :=
  elem ← createElementWithText "option" text;
  mret (setAttribute elem "value" value).

End Builders.

End DomManager.

(** ** A concrete browser for the examples *)

Definition isDigit (c : ascii) : bool :=
  let n := nat_of_ascii c in Nat.leb 48 n && Nat.leb n 57.

Definition isIdentChar (c : ascii) : bool :=
  let n := nat_of_ascii c in
  (Nat.leb 97 n && Nat.leb n 122) || (Nat.leb 65 n && Nat.leb n 90)
  || isDigit c || Nat.eqb n 45 || Nat.eqb n 95.

(** A non-empty run of letters, digits, [-] and [_] that starts with no
    digit. *)
Definition isIdent (s : string) : bool :=
  match s with
  | EmptyString => false
  | String c _ => negb (isDigit c) && forallb isIdentChar (String.list_ascii_of_string s)
  end.

(** A small engine: it accepts [#ident] (the element with that ID) and
    [ident] (the elements with that tag name) and rejects the rest. *)
Definition simpleEngine : SelectorEngine :=
  mkSelectorEngine
    (fun query =>
       match query with
       | String "#" id => isIdent id
       | _ => isIdent query
       end)
    (fun query =>
       match query with
       | String "#" id => hasId id
       | _ => hasTag query
       end).

Definition sampleConfig : Config.t :=
  Config.mk
    (Config.mkDom
       (Config.mkId "yay-filter-container" "yay-filter-status" "yay-filter-info")
       (Config.mkSelector "ytd-comments" "h2" "ytd-comment-thread-renderer"
          "#contents" "#content-text" "tp-yt-paper-item")).

(** The page before the comment section is rendered. *)
Definition loadingPage : Document :=
  mkDocument
    (mkElement "html" []
       [ElementNode (mkElement "head" [] []);
        ElementNode (mkElement "body" [] [ElementNode (mkElement "div" [("id", "player")] [])])]).

(** The page with one comment thread and the extension's filter button. *)
Definition readyPage : Document :=
  mkDocument
    (mkElement "html" []
       [ElementNode (mkElement "head" [] []);
        ElementNode
          (mkElement "body" []
             [ElementNode (mkElement "div" [("id", "player")] []);
              ElementNode
                (mkElement "ytd-comments" [("id", "comments")]
                   [ElementNode
                      (mkElement "span" [("id", "yay-filter-container")]
                         [ElementNode (mkElement "span" [("id", "yay-filter-status")] [])]);
                    ElementNode
                      (mkElement "div" [("id", "contents")]
                         [ElementNode
                            (mkElement "ytd-comment-thread-renderer" []
                               [Comment "thread";
                                ElementNode
                                  (mkElement "span" [("id", "content-text")]
                                     [Text "Nice "; ElementNode (mkElement "b" [] [Text "video"])])])])])])]).

(** The page stays as it is at run 0. *)
Definition still (document : Document) : nat -> Document := fun _ => document.

(** The comment section appears in time for run [n] (counted from 0). *)
Definition appearsAt (n : nat) : nat -> Document :=
  fun run => if Nat.ltb run n then loadingPage else readyPage.

(** ** Tree order, child list by child list *)

(** The element paths of the trees under the children [ks], the first of
    which is child number [i]. *)
Fixpoint pathsOfChildren (i : nat) (ks : list Node) : list Path :=
  match ks with
  | [] => []
  | k :: ks' => ((i ::.) <$> elementPaths k) ++ pathsOfChildren (S i) ks'
  end.

(** ** The end of a discovery session *)

(** What a run does after a lookup that did not answer [null]: it passes a
    found element to the callback; after an exception nothing follows. *)
Definition delivery (answer : Result (option Path)) : list Event :=
  match answer with
  | Ok (Some elem) => [Callback (Some elem)]
  | _ => []
  end.

(** A configuration whose comment-container selector no browser accepts
    (the empty string), for the concrete runs. *)
Definition brokenConfig : Config.t :=
  Config.mk
    (Config.mkDom
       (Config.mkId "yay-filter-container" "yay-filter-status" "yay-filter-info")
       (Config.mkSelector "" "h2" "ytd-comment-thread-renderer"
          "#contents" "#content-text" "tp-yt-paper-item")).

(** ** Attaching a fragment, and the search for an ID *)

(** [parent.appendChild(child)] for the element [parent] of the tree under
    [n]: the tree with [child] as the new last child of that element. *)
Fixpoint appendChildAt (n : Node) (parent : Path) (child : Node) : Node :=
  match n with
  | ElementNode e =>
      match parent with
      | [] => ElementNode (appendChild e child)
      | i :: parent' =>
          match childNodes e !! i with
          | Some k =>
              ElementNode
                (withChildNodes e
                   (<[i := appendChildAt k parent' child]> (childNodes e)))
          | None => n
          end
      end
  | _ => n
  end.

(** The page after [parent.appendChild(child)]. *)
Definition attach (document : Document) (parent : Path) (child : HTMLElement)
  : Document :=
  match appendChildAt (root document) parent (ElementNode child) with
  | ElementNode e => mkDocument e
  | _ => document
  end.

(** The element itself has the ID [id]. *)
Definition ownId (id : string) (e : HTMLElement) : bool :=
  match getAttribute e "id" with
  | Some v => bool_decide (v = id) && negb (bool_decide (id = ""))
  | None => false
  end.

(** The first of the children [ks] (child number [j] first) under which
    [search] finds something, with the path found. *)
Definition searchChildren (search : Node -> option Path)
  : nat -> list Node -> option Path :=
  fix go (j : nat) (ks : list Node) : option Path :=
    match ks with
    | [] => None
    | k :: ks' =>
        match search k with
        | Some r => Some (j :: r)
        | None => go (S j) ks'
        end
    end.

(** The first element in tree order under [n] that has the ID [id], found
    by descending the tree. *)
Fixpoint searchId (id : string) (n : Node) : option Path :=
  match n with
  | ElementNode (mkElement t a kids) =>
      if ownId id (mkElement t a kids) then Some []
      else searchChildren (searchId id) 0 kids
  | _ => None
  end.

(** The text of the children [ks], in order. *)
Fixpoint textOfChildren (ks : list Node) : string :=
  match ks with
  | [] => ""
  | k :: ks' => descendantText k +:+ textOfChildren ks'
  end.

(** A factory that accepts the names made of letters, digits, [-] and [_]
    that start with a letter, for the concrete runs. *)
Definition simpleFactory : ElementFactory :=
  mkElementFactory
    (fun name =>
       match name with
       | EmptyString => false
       | String c _ =>
           let n := nat_of_ascii (lowerAscii c) in
           Nat.leb 97 n && Nat.leb n 122 && isIdent name
       end).

(** An icon as [DOMParser] would hand it over, and a message table. *)
Definition sampleIcon : HTMLElement :=
  mkElement "svg" [("viewBox", "0 0 24 24")]
    [ElementNode (mkElement "path" [("d", "M3 4h18l-7 8v6l-4 2v-8z")] [])].

Definition sampleMessages (key : string) : string :=
  if bool_decide (key = "filter") then "Filter"
  else if bool_decide (key = "filter_comments") then "Filter comments"
  else "".

(** A builder keeps its text in a single text node that [replaceText]
    maintains: what it builds has the given text as its text content, and
    [replaceText] turns it into what the builder makes of the new text;
    whether the builder throws does not depend on the text. *)
Definition textHolder (build : string -> Created HTMLElement) : Prop :=
  forall text text',
    match build text with
    | Made elem =>
        textContent (ElementNode elem) = Some text /\
        build text' = Made (DomManager.replaceText elem text')
    | InvalidCharacterError name => build text' = InvalidCharacterError name
    end.

(** The node at [p] under [n] is an element with the ID [id]. *)
Definition idAt (id : string) (n : Node) (p : Path) : bool :=
  match nodeAt n p with
  | Some (ElementNode e) => ownId id e
  | _ => false
  end.

(** What [createYayFilterContainer] builds from the samples. *)
Definition sampleButton : FilterContainer :=
  mkFilterContainer
    (mkElement "span" [("id", "yay-filter-container")]
       [ElementNode
          (mkElement "paper-tooltip" [("class", "style-scope"); ("role", "tooltip")]
             [Text "Filter comments"]);
        ElementNode
          (mkElement "div" []
             [ElementNode sampleIcon;
              ElementNode (mkElement "span" [] [Text "Filter"]);
              ElementNode (mkElement "span" [("id", "yay-filter-status")] []);
              ElementNode (mkElement "span" [("id", "yay-filter-info")] [])])])
    [1; 2] [1; 3] [mkListener [1] "click" false].

(** * Properties *)

(** ** Mutation utilities *)

Lemma element_eta (e : HTMLElement) : withChildNodes e (childNodes e) = e.
Proof. destruct e; reflexivity. Qed.

Lemma lastChild_None (e : HTMLElement) : lastChild e = None -> childNodes e = [].
Proof.
  unfold lastChild. destruct (childNodes e) as [|k kids] using rev_ind; [reflexivity|].
  rewrite last_snoc. discriminate.
Qed.

(** The loop of [clearChildElements] ends with the element stripped of its
    whole child list. *)
Lemma clearChildElements_eq (element : HTMLElement) :
  DomManager.clearChildElements element = withChildNodes element [].
Proof.
  funelim (DomManager.clearChildElements element).
  - match goal with IH : DomManager.clearChildElements _ = withChildNodes _ _ |- _ =>
      rewrite IH end.
    destruct element; reflexivity.
  - match goal with Hl : lastChild _ = None |- _ => apply lastChild_None in Hl as Hk end.
    rewrite <- Hk. symmetry. apply element_eta.
Qed.

(** C6. On an element without child nodes, [replaceText] leaves exactly one
    child, a text node whose value is the given text (tag and attributes
    untouched). *)
Theorem replaceText_on_childless (elem : HTMLElement) (text : string) :
  length (childNodes elem) = 0 ->
  childNodes (DomManager.replaceText elem text) = [Text text] /\
  length (childNodes (DomManager.replaceText elem text)) = 1 /\
  tagName (DomManager.replaceText elem text) = tagName elem /\
  attributes (DomManager.replaceText elem text) = attributes elem.
Proof.
  intros Hlen. destruct elem as [t a kids]; simpl in Hlen.
  apply length_zero_iff_nil in Hlen. subst kids.
  unfold DomManager.replaceText; simpl. repeat split.
Qed.

Lemma replaceText_on_childless_witness :
  length (childNodes (mkElement "span" [("id", "yay-filter-status")] [])) = 0 /\
  childNodes (DomManager.replaceText (mkElement "span" [("id", "yay-filter-status")] []) "on")
  = [Text "on"].
Proof.
  split; [reflexivity|].
  apply (replaceText_on_childless (mkElement "span" [("id", "yay-filter-status")] []) "on").
  reflexivity.
Defined.

(** What one call of [replaceText] does, by the shape of the child list. *)
Lemma replaceText_cases (elem : HTMLElement) (text : string) :
  childNodes (DomManager.replaceText elem text) =
  match childNodes elem with
  | [] => [Text text]
  | first :: siblings => setNodeValue first text :: siblings
  end.
Proof.
  destruct elem as [t a [|first siblings]]; reflexivity.
Qed.

Lemma isText_setNodeValue (n : Node) (v : string) :
  isText (setNodeValue n v) = isText n.
Proof. destruct n; reflexivity. Qed.

Lemma replaceText_nonTextCount (elem : HTMLElement) (text : string) :
  nonTextCount (DomManager.replaceText elem text) = nonTextCount elem.
Proof.
  unfold nonTextCount. rewrite replaceText_cases.
  destruct (childNodes elem) as [|first siblings]; [reflexivity|].
  rewrite !filter_cons, isText_setNodeValue.
  destruct (decide (isText first = false)); reflexivity.
Qed.

Lemma replaceText_siblings (elem : HTMLElement) (text : string) :
  tail (childNodes (DomManager.replaceText elem text)) = tail (childNodes elem).
Proof.
  rewrite replaceText_cases. destruct (childNodes elem); reflexivity.
Qed.

Lemma replaceText_element_first (elem first : HTMLElement) (text : string)
  (siblings : list Node) :
  childNodes elem = ElementNode first :: siblings ->
  DomManager.replaceText elem text = elem.
Proof.
  destruct elem as [t a kids]; simpl. intros ->. reflexivity.
Qed.

(** C7, as the code has it. Two calls of [replaceText] in succession leave
    the number of non-text children, and every child but the first, as
    they were.  When the element had no children, or a text or comment
    node as its first child, the first child's value is then the second
    call's argument; when the first child is an element node, assigning its
    [nodeValue] does nothing and the element is unchanged. *)
Theorem replaceText_twice (elem : HTMLElement) (text1 text2 : string) :
  let after := DomManager.replaceText (DomManager.replaceText elem text1) text2 in
  nonTextCount after = nonTextCount elem /\
  tail (childNodes after) = tail (childNodes elem) /\
  match childNodes elem !! 0 with
  | Some (ElementNode _) => after = elem
  | _ => (childNodes after !! 0) ≫= nodeValue = Some text2
  end.
Proof.
  cbv zeta. split; [|split].
  - now rewrite !replaceText_nonTextCount.
  - now rewrite !replaceText_siblings.
  - destruct (childNodes elem) as [|first siblings] eqn:Hkids; simpl.
    + rewrite !replaceText_cases, Hkids. reflexivity.
    + destruct first as [d|d|e].
      * rewrite !replaceText_cases, Hkids. reflexivity.
      * rewrite !replaceText_cases, Hkids. reflexivity.
      * rewrite !(replaceText_element_first elem e _ siblings Hkids). reflexivity.
Qed.

(** C7 fails as stated: a label holder whose first child is an icon
    element.  After [replaceText] with ["a"] and then ["b"] the first child
    is still the icon: its value is [null] and its text content is empty,
    neither is ["b"]. *)
Lemma replaceText_twice_icon_first :
  let icon := ElementNode (mkElement "svg" [] []) in
  let elem := mkElement "div" [] [icon; Text "Filter"] in
  let after := DomManager.replaceText (DomManager.replaceText elem "a") "b" in
  after = elem /\
  childNodes after !! 0 = Some icon /\
  (childNodes after !! 0) ≫= nodeValue = None /\
  (childNodes after !! 0) ≫= textContent = Some "" /\
  (childNodes after !! 0) ≫= nodeValue <> Some "b" /\
  (childNodes after !! 0) ≫= textContent <> Some "b".
Proof.
  cbv zeta. repeat split; discriminate.
Qed.

(** C8. [clearChildElements] leaves the element in place (same tag, same
    attributes) with no child node; on an element that has none it changes
    nothing; applied twice it does what it does applied once. *)
Theorem clearChildElements_empties (element : HTMLElement) :
  childNodes (DomManager.clearChildElements element) = [] /\
  tagName (DomManager.clearChildElements element) = tagName element /\
  attributes (DomManager.clearChildElements element) = attributes element /\
  (length (childNodes element) = 0 -> DomManager.clearChildElements element = element) /\
  DomManager.clearChildElements (DomManager.clearChildElements element)
  = DomManager.clearChildElements element.
Proof.
  rewrite !clearChildElements_eq. repeat split.
  intros Hlen. apply length_zero_iff_nil in Hlen. rewrite <- Hlen. apply element_eta.
Qed.

Lemma clearChildElements_empties_witness :
  DomManager.clearChildElements
    (mkElement "ul" [("class", "menu")]
       [ElementNode (mkElement "li" [] [Text "one"]); Comment "gap"; Text "two"])
  = mkElement "ul" [("class", "menu")] [] /\
  DomManager.clearChildElements (mkElement "ul" [("class", "menu")] [])
  = mkElement "ul" [("class", "menu")] [].
Proof.
  split.
  - pose proof (clearChildElements_empties
                  (mkElement "ul" [("class", "menu")]
                     [ElementNode (mkElement "li" [] [Text "one"]); Comment "gap"; Text "two"]))
      as (Hkids & Htag & Hattrs & _).
    destruct (DomManager.clearChildElements _) as [t a kids]; simpl in *.
    now subst.
  - pose proof (clearChildElements_empties (mkElement "ul" [("class", "menu")] []))
      as (_ & _ & _ & Hnoop & _).
    apply Hnoop. reflexivity.
Defined.

(** ** The lookup contract *)

Section LookupContract.
Context {engine : SelectorEngine} (Config : Config.t).

Lemma querySelector_of_matches (document : Document) (ancestor : option Path)
  (query : string) (all : list Path) :
  matchesIn document ancestor query = Ok all ->
  match ancestor with
  | None => document_querySelector document query
  | Some ancestor => element_querySelector document ancestor query
  end = Ok (head all).
Proof.
  destruct ancestor as [a|]; simpl; intros Hall;
    [unfold element_querySelector | unfold document_querySelector];
    rewrite Hall; reflexivity.
Qed.

Lemma getElementByQuery_not_found (document : Document) (query : string)
  (ancestor : option Path) :
  matchesIn document ancestor query = Ok [] ->
  DomManager.getElementByQuery document query ancestor = Throw (notFound query).
Proof.
  intros Hzero. unfold DomManager.getElementByQuery.
  rewrite (querySelector_of_matches _ _ _ _ Hzero). reflexivity.
Qed.

Lemma getElementByQuery_found (document : Document) (query : string)
  (ancestor : option Path) (first : Path) (others : list Path) :
  matchesIn document ancestor query = Ok (first :: others) ->
  DomManager.getElementByQuery document query ancestor = Ok first.
Proof.
  intros Hall. unfold DomManager.getElementByQuery.
  rewrite (querySelector_of_matches _ _ _ _ Hall). reflexivity.
Qed.

(** A selector the browser rejects is no query without a match: the
    lookup ends with the browser's [SyntaxError]. *)
Lemma getElementByQuery_rejected (document : Document) (query : string)
  (ancestor : option Path) :
  validSelector query = false ->
  DomManager.getElementByQuery document query ancestor = Throw (SyntaxError query).
Proof.
  intros Hbad. unfold DomManager.getElementByQuery, document_querySelector,
    element_querySelector, document_querySelectorAll, element_querySelectorAll,
    selectAll.
  destruct ancestor; rewrite Hbad; reflexivity.
Qed.

(** C5. On a page where a query has no match, every throwing lookup
    ([getElementByQuery], [getElementById], [getYayFilterContainer],
    [getCommentThreadContainer]) throws the error whose message is
    ["Element not found: "] followed by the query, and every nullable
    lookup answers [null] or the empty list without throwing; the lookups
    by ID through [document.getElementById] never throw at all. *)
Theorem lookup_contract (document : Document) :
  (forall query ancestor,
      matchesIn document ancestor query = Ok [] ->
      DomManager.getElementByQuery document query ancestor
      = Throw (Error ("Element not found: " +:+ query)) /\
      match ancestor with
      | None => document_querySelector document query
      | Some ancestor => element_querySelector document ancestor query
      end = Ok None) /\
  (forall id,
      document_querySelectorAll document ("#" +:+ id) = Ok [] ->
      DomManager.getElementById document id
      = Throw (Error ("Element not found: " +:+ ("#" +:+ id)))) /\
  (document_querySelectorAll document
     ("#" +:+ Config.(Config.dom).(Config.id).(Config.yayFilterContainer)) = Ok [] ->
   DomManager.getYayFilterContainer Config document
   = Throw (Error ("Element not found: " +:+
                   ("#" +:+ Config.(Config.dom).(Config.id).(Config.yayFilterContainer))))) /\
  (document_querySelectorAll document
     Config.(Config.dom).(Config.selector).(Config.ytCommentContents) = Ok [] ->
   DomManager.getCommentThreadContainer Config document
   = Throw (Error ("Element not found: " +:+
                   Config.(Config.dom).(Config.selector).(Config.ytCommentContents)))) /\
  (document_querySelectorAll document
     Config.(Config.dom).(Config.selector).(Config.ytCommentContainer) = Ok [] ->
   DomManager.findCommentContainer Config document = Ok None) /\
  (document_querySelectorAll document
     Config.(Config.dom).(Config.selector).(Config.ytCommentTitle) = Ok [] ->
   DomManager.findCommentHeader Config document = Ok None) /\
  (document_querySelectorAll document
     Config.(Config.dom).(Config.selector).(Config.ytCommentThread) = Ok [] ->
   DomManager.findCommentThreads Config document = Ok []) /\
  (document_querySelectorAll document
     Config.(Config.dom).(Config.selector).(Config.ytCommentSortItems) = Ok [] ->
   DomManager.findSortItems Config document = Ok []) /\
  (forall find,
      In find [DomManager.findYayFilterContainer; DomManager.findYayFilterStatus;
               DomManager.findYayFilterInfo] ->
      throws (find Config document) = false) /\
  (document_getElementById document
     Config.(Config.dom).(Config.id).(Config.yayFilterContainer) = None ->
   DomManager.findYayFilterContainer Config document = Ok None) /\
  (document_getElementById document
     Config.(Config.dom).(Config.id).(Config.yayFilterStatus) = None ->
   DomManager.findYayFilterStatus Config document = Ok None) /\
  (document_getElementById document
     Config.(Config.dom).(Config.id).(Config.yayFilterInfo) = None ->
   DomManager.findYayFilterInfo Config document = Ok None).
Proof.
  repeat apply conj.
  - intros query ancestor Hzero. split.
    + apply getElementByQuery_not_found, Hzero.
    + apply (querySelector_of_matches _ _ _ _ Hzero).
  - intros id Hzero.
    apply (getElementByQuery_not_found document ("#" +:+ id) None Hzero).
  - intros Hzero.
    apply (getElementByQuery_not_found document _ None Hzero).
  - intros Hzero.
    apply (getElementByQuery_not_found document _ None Hzero).
  - intros Hzero. apply (querySelector_of_matches document None _ _ Hzero).
  - intros Hzero. apply (querySelector_of_matches document None _ _ Hzero).
  - intros Hzero. exact Hzero.
  - intros Hzero. exact Hzero.
  - intros find Hin. simpl in Hin.
    destruct Hin as [<-|[<-|[<-|[]]]]; reflexivity.
  - intros Hnone. unfold DomManager.findYayFilterContainer. now rewrite Hnone.
  - intros Hnone. unfold DomManager.findYayFilterStatus. now rewrite Hnone.
  - intros Hnone. unfold DomManager.findYayFilterInfo. now rewrite Hnone.
Qed.

(** C9. With a comment-text selector the browser accepts,
    [fetchTextContent] returns a string for every thread and never throws:
    the empty string when the thread has no comment-text descendant or
    that descendant's [textContent] is [null], and that [textContent]
    otherwise. *)
Theorem fetchTextContent_total (document : Document) (thread : Path) :
  validSelector Config.(Config.dom).(Config.selector).(Config.ytCommentText) = true ->
  exists content,
    DomManager.fetchTextContent Config document thread = Ok content /\
    exists text,
      element_querySelector document thread
        Config.(Config.dom).(Config.selector).(Config.ytCommentText) = Ok text /\
      content = match text with
                | None => ""
                | Some text => match textContentAt document text with
                               | None => ""
                               | Some content => content
                               end
                end.
Proof.
  intros Hvalid. unfold DomManager.fetchTextContent, element_querySelector,
    element_querySelectorAll, selectAll.
  rewrite Hvalid. simpl.
  destruct (head _) as [text|].
  - destruct (textContentAt document text) as [content|] eqn:Hcontent;
      (eexists; split; [reflexivity|]; eexists; split; [reflexivity|]);
      simpl; rewrite ?Hcontent; reflexivity.
  - eexists; split; [reflexivity|]. eexists; split; reflexivity.
Qed.

(** C10. When the browser reads [#] followed by the filter container's ID as
    the ID selector for it, [getYayFilterContainer] returns an element
    exactly when [findYayFilterContainer] answers one, the same one; and it
    throws exactly when [findYayFilterContainer] answers [null]. *)
Theorem filter_container_lookups_agree (document : Document) :
  idSelector engine Config.(Config.dom).(Config.id).(Config.yayFilterContainer) ->
  (forall elem,
      DomManager.getYayFilterContainer Config document = Ok elem <->
      DomManager.findYayFilterContainer Config document = Ok (Some elem)) /\
  (throws (DomManager.getYayFilterContainer Config document) = true <->
   DomManager.findYayFilterContainer Config document = Ok None).
Proof.
  intros [Hvalid Hmatches].
  unfold DomManager.getYayFilterContainer, DomManager.getElementById,
    DomManager.getElementByQuery, DomManager.findYayFilterContainer,
    document_querySelector, document_querySelectorAll, selectAll,
    document_getElementById.
  rewrite Hvalid. simpl.
  rewrite (list_filter_iff
             (fun p => matchesSelector
                         ("#" +:+ Config.(Config.dom).(Config.id).(Config.yayFilterContainer))
                         document p = true)
             (fun p => hasId Config.(Config.dom).(Config.id).(Config.yayFilterContainer)
                         document p = true))
    by (intros p; now rewrite Hmatches).
  destruct (head _) as [found|]; simpl; split.
  - intros elem. split; intros Heq; inversion Heq; reflexivity.
  - split; discriminate.
  - intros elem. split; discriminate.
  - split; reflexivity.
Qed.

End LookupContract.

Lemma lookup_contract_witness :
  @document_querySelectorAll simpleEngine loadingPage "#yay-filter-container" = Ok [] /\
  @DomManager.getYayFilterContainer simpleEngine sampleConfig loadingPage
  = Throw (Error "Element not found: #yay-filter-container") /\
  @DomManager.findCommentContainer simpleEngine sampleConfig loadingPage = Ok None.
Proof.
  pose proof (@lookup_contract simpleEngine sampleConfig loadingPage)
    as (_ & _ & Hget & _ & Hfind & _).
  split; [reflexivity|].
  split; [apply Hget; reflexivity | apply Hfind; reflexivity].
Defined.

Lemma fetchTextContent_total_witness :
  @validSelector simpleEngine "#content-text" = true /\
  @DomManager.fetchTextContent simpleEngine sampleConfig readyPage [1; 1; 1; 0]
  = Ok "Nice video".
Proof.
  split; [reflexivity|].
  destruct (@fetchTextContent_total simpleEngine sampleConfig readyPage [1; 1; 1; 0]
              eq_refl) as (content & Hfetch & text & Hquery & Hcontent).
  rewrite Hfetch, Hcontent. f_equal.
  vm_compute in Hquery. inversion Hquery. reflexivity.
Defined.

(** The small engine reads [#id] as the ID selector for every identifier. *)
Lemma simpleEngine_idSelector (id : string) :
  isIdent id = true -> idSelector simpleEngine id.
Proof.
  intros Hident. split; [exact Hident | intros document p; reflexivity].
Qed.

Lemma filter_container_lookups_agree_witness :
  idSelector simpleEngine "yay-filter-container" /\
  (@DomManager.getYayFilterContainer simpleEngine sampleConfig readyPage = Ok [1; 1; 0] <->
   DomManager.findYayFilterContainer sampleConfig readyPage = Ok (Some [1; 1; 0])) /\
  (throws (@DomManager.getYayFilterContainer simpleEngine sampleConfig loadingPage) = true <->
   DomManager.findYayFilterContainer sampleConfig loadingPage = Ok None).
Proof.
  assert (Hid : idSelector simpleEngine "yay-filter-container")
    by (apply simpleEngine_idSelector; reflexivity).
  split; [exact Hid|]. split.
  - apply (@filter_container_lookups_agree simpleEngine sampleConfig readyPage Hid).
  - apply (@filter_container_lookups_agree simpleEngine sampleConfig loadingPage Hid).
Defined.

(** ** The discovery session *)

Lemma callbackArgs_app (xs ys : list Event) :
  callbackArgs (xs ++ ys) = callbackArgs xs ++ callbackArgs ys.
Proof. unfold callbackArgs. apply omap_app. Qed.

Lemma lookupCount_app (xs ys : list Event) :
  lookupCount (xs ++ ys) = lookupCount xs + lookupCount ys.
Proof. unfold lookupCount. now rewrite filter_app, length_app. Qed.

Lemma lookupCount_expired (timeout : Z) : lookupCount (expired timeout) = 0.
Proof. unfold expired. destruct (timeout <=? 0)%Z; reflexivity. Qed.

Lemma lookupCount_absentTrace (timeout delay : Z) (n : nat) :
  lookupCount (absentTrace timeout delay n) = n.
Proof.
  revert timeout. induction n as [|n IH]; intros timeout; [reflexivity|].
  simpl. rewrite lookupCount_app, lookupCount_expired.
  change (Lookup (Ok None) :: absentTrace (timeout - delay) delay n)
    with ([Lookup (Ok None)] ++ absentTrace (timeout - delay) delay n).
  rewrite lookupCount_app, IH. reflexivity.
Qed.

Lemma ceilDiv_step (t d : Z) : (0 < d)%Z -> ceilDiv (t - d) d = (ceilDiv t d - 1)%Z.
Proof.
  intros Hd. unfold ceilDiv.
  replace (t - d + d - 1)%Z with (t + d - 1 + (-1) * d)%Z by lia.
  rewrite Z.div_add by lia. lia.
Qed.

Lemma ceilDiv_nonpos (t d : Z) : (0 < d)%Z -> (t <= 0)%Z -> (ceilDiv t d <= 0)%Z.
Proof.
  intros Hd Ht. unfold ceilDiv.
  assert ((t + d - 1) / d < 1)%Z; [|lia].
  apply Z.div_lt_upper_bound; lia.
Qed.

Lemma ceilDiv_pos (t d : Z) : (0 < d)%Z -> (0 < t)%Z -> (1 <= ceilDiv t d)%Z.
Proof.
  intros Hd Ht. unfold ceilDiv. apply Z.div_le_lower_bound; lia.
Qed.

(** Run [k] (counted from 0) still has budget exactly when [k] is below the
    ceiling of [t / d]. *)
Lemma within_budget (t d : Z) (k : nat) :
  (0 < d)%Z -> k < Z.to_nat (ceilDiv t d) <-> (Z.of_nat k * d < t)%Z.
Proof.
  intros Hd. revert t. induction k as [|k IH]; intros t.
  - destruct (Z_lt_le_dec 0 t) as [Ht|Ht].
    + pose proof (ceilDiv_pos t d Hd Ht). lia.
    + pose proof (ceilDiv_nonpos t d Hd Ht). lia.
  - specialize (IH (t - d)%Z). rewrite ceilDiv_step in IH by assumption. nia.
Qed.

(** Runs that find nothing call the callback once each from the moment the
    budget is used up, and not before. *)
Lemma callbackArgs_absentTrace (t d : Z) (n : nat) :
  (0 < d)%Z ->
  callbackArgs (absentTrace t d n)
  = replicate (n - Nat.min n (Z.to_nat (ceilDiv t d))) None.
Proof.
  intros Hd. revert t. induction n as [|n IH]; intros t; [reflexivity|].
  simpl absentTrace. rewrite callbackArgs_app.
  change (Lookup (Ok None) :: absentTrace (t - d) d n)
    with ([Lookup (Ok None)] ++ absentTrace (t - d) d n).
  rewrite callbackArgs_app, IH, ceilDiv_step by assumption. simpl.
  unfold expired. destruct (Z.leb_spec t 0) as [Ht|Ht].
  - pose proof (ceilDiv_nonpos t d Hd Ht).
    replace (Z.to_nat (ceilDiv t d - 1)) with 0 by lia.
    replace (Z.to_nat (ceilDiv t d)) with 0 by lia.
    rewrite !Nat.min_0_r, !Nat.sub_0_r. reflexivity.
  - pose proof (ceilDiv_pos t d Hd Ht).
    replace (Z.to_nat (ceilDiv t d)) with (S (Z.to_nat (ceilDiv t d - 1))) by lia.
    reflexivity.
Qed.

(** The default budget of 30 s at 200 ms allows 150 runs with a lookup before
    the first expired one. *)
Example default_budget :
  Z.to_nat (ceilDiv DomManager.defaultTimeout DomManager.defaultDelay) = 150.
Proof. reflexivity. Qed.

Section Discovery.
Context {engine : SelectorEngine} (Config : Config.t).

Lemma withCommentContainer_absent (document : Document) (timeout delay : Z)
  (s : Session) :
  DomManager.findCommentContainer Config document = Ok None ->
  DomManager.withCommentContainer Config document timeout delay s
  = (Ok tt, mkSession (trace s ++ expired timeout ++ [Lookup (Ok None)])
              (timers s ++ [mkTimer (timeout - delay) delay delay])).
Proof.
  intros Hfind. unfold DomManager.withCommentContainer, expired.
  rewrite Hfind.
  destruct (timeout <=? 0)%Z;
    cbv [mbind mret Task_bind Task_ret callback emit attempt setTimeout]; cbn;
    rewrite <- ?app_assoc; reflexivity.
Qed.

Lemma withCommentContainer_found (document : Document) (timeout delay : Z)
  (s : Session) (elem : Path) :
  DomManager.findCommentContainer Config document = Ok (Some elem) ->
  DomManager.withCommentContainer Config document timeout delay s
  = (Ok tt, mkSession
              (trace s ++ expired timeout ++ [Lookup (Ok (Some elem)); Callback (Some elem)])
              (timers s)).
Proof.
  intros Hfind. unfold DomManager.withCommentContainer, expired.
  rewrite Hfind.
  destruct (timeout <=? 0)%Z;
    cbv [mbind mret Task_bind Task_ret callback emit attempt setTimeout]; cbn;
    rewrite <- ?app_assoc; reflexivity.
Qed.

(** Without a pending timer nothing more happens. *)
Lemma eventLoop_settled (page : nat -> Document) (run fuel : nat) (s : Session) :
  timers s = [] -> DomManager.eventLoop Config page run fuel s = s.
Proof. destruct fuel; simpl; [reflexivity|]. intros ->. reflexivity. Qed.

Lemma eventLoop_absent (page : nat -> Document) (fuel : nat) :
  forall (run : nat) (t d : Z) (events : list Event),
    (forall i, i < fuel -> DomManager.findCommentContainer Config (page (run + i)) = Ok None) ->
    DomManager.eventLoop Config page run fuel (mkSession events [mkTimer t d d])
    = mkSession (events ++ absentTrace t d fuel) [mkTimer (t - Z.of_nat fuel * d) d d].
Proof.
  induction fuel as [|fuel IH]; intros run t d events Habsent.
  - replace (t - Z.of_nat 0 * d)%Z with t by lia.
    simpl. rewrite app_nil_r. reflexivity.
  - replace (t - Z.of_nat (S fuel) * d)%Z with (t - d - Z.of_nat fuel * d)%Z by lia.
    simpl DomManager.eventLoop. simpl timers.
    rewrite withCommentContainer_absent
      by (specialize (Habsent 0); rewrite Nat.add_0_r in Habsent; apply Habsent; lia).
    simpl. rewrite IH.
    + rewrite <- !app_assoc. reflexivity.
    + intros i Hi. replace (S run + i) with (run + S i) by lia. apply Habsent. lia.
Qed.

Lemma eventLoop_found (page : nat -> Document) (elem : Path) (k : nat) :
  forall (run fuel : nat) (t d : Z) (events : list Event),
    (forall i, i < k -> DomManager.findCommentContainer Config (page (run + i)) = Ok None) ->
    DomManager.findCommentContainer Config (page (run + k)) = Ok (Some elem) ->
    k < fuel ->
    DomManager.eventLoop Config page run fuel (mkSession events [mkTimer t d d])
    = mkSession (events ++ absentTrace t d k ++ expired (t - Z.of_nat k * d)
                   ++ [Lookup (Ok (Some elem)); Callback (Some elem)]) [].
Proof.
  induction k as [|k IH]; intros run fuel t d events Habsent Hfound Hfuel;
    (destruct fuel as [|fuel]; [lia|]).
  - replace (t - Z.of_nat 0 * d)%Z with t by lia.
    simpl DomManager.eventLoop. simpl timers.
    rewrite Nat.add_0_r in Hfound.
    rewrite (withCommentContainer_found _ _ _ _ _ Hfound). simpl.
    rewrite eventLoop_settled by reflexivity. reflexivity.
  - replace (t - Z.of_nat (S k) * d)%Z with (t - d - Z.of_nat k * d)%Z by lia.
    simpl DomManager.eventLoop. simpl timers.
    rewrite withCommentContainer_absent
      by (specialize (Habsent 0); rewrite Nat.add_0_r in Habsent; apply Habsent; lia).
    simpl. rewrite (IH (S run) fuel).
    + rewrite <- !app_assoc. reflexivity.
    + intros i Hi. replace (S run + i) with (run + S i) by lia. apply Habsent. lia.
    + replace (S run + k) with (run + S k) by lia. exact Hfound.
    + lia.
Qed.

(** A session on a page that never shows the container: after [fuel]
    timers, [fuel + 1] runs have looked up and one more timer is armed. *)
Lemma discovery_absent (page : nat -> Document) (t d : Z) (fuel : nat) :
  DomManager.absentThroughout Config page ->
  DomManager.discovery Config page t d fuel
  = mkSession (absentTrace t d (S fuel))
      [mkTimer (t - Z.of_nat (S fuel) * d) d d].
Proof.
  intros Habsent. unfold DomManager.discovery.
  replace (t - Z.of_nat (S fuel) * d)%Z with (t - d - Z.of_nat fuel * d)%Z by lia.
  rewrite (withCommentContainer_absent _ _ _ _ (Habsent 0)). simpl snd.
  simpl timers. simpl trace. rewrite eventLoop_absent by (intros; apply Habsent).
  simpl absentTrace. rewrite <- !app_assoc. reflexivity.
Qed.

(** A session whose run [k] is the first to find the container: it ends
    there, whatever fuel is left. *)
Lemma discovery_found (page : nat -> Document) (t d : Z) (k fuel : nat)
  (elem : Path) :
  DomManager.firstFoundAt Config page k elem ->
  k <= fuel ->
  DomManager.discovery Config page t d fuel
  = mkSession (absentTrace t d k ++ expired (t - Z.of_nat k * d)
                 ++ [Lookup (Ok (Some elem)); Callback (Some elem)]) [].
Proof.
  intros [Habsent Hfound] Hfuel. unfold DomManager.discovery.
  destruct k as [|k].
  - replace (t - Z.of_nat 0 * d)%Z with t by lia.
    rewrite (withCommentContainer_found _ _ _ _ _ Hfound). simpl snd.
    rewrite eventLoop_settled by reflexivity. reflexivity.
  - replace (t - Z.of_nat (S k) * d)%Z with (t - d - Z.of_nat k * d)%Z by lia.
    rewrite withCommentContainer_absent by (apply Habsent; lia). simpl snd.
    simpl timers. simpl trace.
    rewrite (eventLoop_found page elem k 1 fuel).
    + simpl absentTrace. rewrite <- !app_assoc. reflexivity.
    + intros i Hi. apply Habsent. simpl. lia.
    + exact Hfound.
    + lia.
Qed.

(** C1, on the code. A session whose container shows up only once the
    budget is used up calls the callback with [null] in each run from the
    first expired one on (the branch for [timeout <= 0] does not return),
    and then once more with the element: at least two calls. *)
Theorem callback_called_again_when_found_late (page : nat -> Document)
  (t d : Z) (k fuel : nat) (elem : Path) :
  (0 < d)%Z ->
  DomManager.firstFoundAt Config page k elem ->
  Z.to_nat (ceilDiv t d) <= k ->
  k <= fuel ->
  callbacks (DomManager.discovery Config page t d fuel)
  = replicate (S (k - Z.to_nat (ceilDiv t d))) None ++ [Some elem] /\
  timers (DomManager.discovery Config page t d fuel) = [].
Proof.
  intros Hd Hfirst Hlate Hfuel.
  rewrite (discovery_found page t d k fuel elem Hfirst Hfuel).
  split; [|reflexivity].
  unfold callbacks. cbn [trace].
  rewrite !callbackArgs_app, callbackArgs_absentTrace by assumption.
  assert (Hexp : expired (t - Z.of_nat k * d) = [Callback None]).
  { unfold expired. destruct (Z.leb_spec (t - Z.of_nat k * d) 0) as [_|Hpos];
      [reflexivity|].
    assert (k < Z.to_nat (ceilDiv t d)) by (apply within_budget; lia). lia. }
  rewrite Hexp.
  replace (k - Nat.min k (Z.to_nat (ceilDiv t d))) with (k - Z.to_nat (ceilDiv t d)) by lia.
  rewrite replicate_S_end, <- app_assoc. reflexivity.
Qed.

(** C2, on the code. With a non-positive timeout the caller's own call
    calls the callback with [null] and then looks the container up all the
    same; an element found is passed to the callback as well, and a miss
    arms a timer. *)
Theorem expired_call_still_looks_up (page : nat -> Document) (t d : Z) :
  (t <= 0)%Z ->
  trace (DomManager.discovery Config page t d 0)
  = Callback None :: Lookup (DomManager.findCommentContainer Config (page 0))
      :: match DomManager.findCommentContainer Config (page 0) with
         | Ok (Some elem) => [Callback (Some elem)]
         | _ => []
         end /\
  lookups (DomManager.discovery Config page t d 0) = 1 /\
  timers (DomManager.discovery Config page t d 0)
  = match DomManager.findCommentContainer Config (page 0) with
    | Ok None => [mkTimer (t - d) d d]
    | _ => []
    end.
Proof.
  intros Ht. unfold DomManager.discovery, DomManager.withCommentContainer, lookups.
  simpl DomManager.eventLoop.
  destruct (Z.leb_spec t 0) as [_|Hpos]; [|lia].
  destruct (DomManager.findCommentContainer Config (page 0)) as [[elem|]|exn];
    repeat split.
Qed.

(** C3, on the code. On a page that never shows the container, with
    [t > 0] and [d > 0]: however many timers have fired, every run has
    looked up, the callback has been called with [null] once for each run
    from run [ceil (t / d)] on, and a further timer is armed.  The first
    [null] comes after [ceil (t / d)] lookups; the session does not stop
    there. *)
Theorem absent_session_keeps_polling (page : nat -> Document) (t d : Z)
  (fuel : nat) :
  (0 < t)%Z -> (0 < d)%Z ->
  DomManager.absentThroughout Config page ->
  lookups (DomManager.discovery Config page t d fuel) = S fuel /\
  callbacks (DomManager.discovery Config page t d fuel)
  = replicate (S fuel - Nat.min (S fuel) (Z.to_nat (ceilDiv t d))) None /\
  timers (DomManager.discovery Config page t d fuel)
  = [mkTimer (t - Z.of_nat (S fuel) * d) d d].
Proof.
  intros Ht Hd Habsent. rewrite (discovery_absent page t d fuel Habsent).
  unfold lookups, callbacks. cbn [trace timers].
  rewrite lookupCount_absentTrace, callbackArgs_absentTrace by assumption.
  repeat split.
Qed.

(** X15. The path on which the session works. With [t > 0] and [d > 0],
    both integers a JavaScript number holds exactly, when the container is
    first found by run [k] (counted from 0, so by lookup [k + 1]) and that
    run still has budget, [k < ceil (t / d)], the callback is called exactly
    once, with the element found, after [k + 1] lookups, and no timer is
    left armed, whatever fuel remains. *)
Theorem found_within_budget (page : nat -> Document) (t d : Z) (k fuel : nat)
  (elem : Path) :
  safeInteger t -> safeInteger d ->
  (0 < t)%Z -> (0 < d)%Z ->
  DomManager.firstFoundAt Config page k elem ->
  k < Z.to_nat (ceilDiv t d) ->
  k <= fuel ->
  callbacks (DomManager.discovery Config page t d fuel) = [Some elem] /\
  lookups (DomManager.discovery Config page t d fuel) = S k /\
  timers (DomManager.discovery Config page t d fuel) = [].
Proof.
  intros _ _ Ht Hd Hfirst Hbudget Hfuel.
  rewrite (discovery_found page t d k fuel elem Hfirst Hfuel).
  unfold callbacks, lookups. cbn [trace timers].
  assert (Hexp : expired (t - Z.of_nat k * d) = []).
  { apply within_budget in Hbudget; [|assumption].
    unfold expired. destruct (Z.leb_spec (t - Z.of_nat k * d) 0); [lia|reflexivity]. }
  rewrite Hexp, !callbackArgs_app, !lookupCount_app, lookupCount_absentTrace,
    callbackArgs_absentTrace by assumption.
  replace (k - Nat.min k (Z.to_nat (ceilDiv t d))) with 0 by lia.
  split; [reflexivity|]. split; [|reflexivity].
  change (lookupCount [] + lookupCount [Lookup (Ok (Some elem)); Callback (Some elem)])
    with 1.
  lia.
Qed.

End Discovery.

(** *** Concrete sessions *)

Lemma appearsAt_firstFound (n : nat) :
  @DomManager.firstFoundAt simpleEngine sampleConfig (appearsAt n) n [1; 1].
Proof.
  split.
  - intros i Hi. unfold appearsAt.
    destruct (Nat.ltb_spec i n) as [_|Hge]; [reflexivity|lia].
  - unfold appearsAt. rewrite Nat.ltb_irrefl. reflexivity.
Qed.

Lemma callback_called_again_when_found_late_witness :
  @DomManager.firstFoundAt simpleEngine sampleConfig (appearsAt 1) 1 [1; 1] /\
  Z.to_nat (ceilDiv 200 200) <= 1 /\
  callbacks (@DomManager.discovery simpleEngine sampleConfig (appearsAt 1) 200 200 1)
  = [None; Some [1; 1]] /\
  timers (@DomManager.discovery simpleEngine sampleConfig (appearsAt 1) 200 200 1) = [].
Proof.
  split; [exact (appearsAt_firstFound 1)|].
  split; [vm_compute; lia|].
  apply (@callback_called_again_when_found_late simpleEngine sampleConfig
           (appearsAt 1) 200 200 1 1 [1; 1]).
  - lia.
  - exact (appearsAt_firstFound 1).
  - vm_compute; lia.
  - lia.
Defined.

Lemma expired_call_still_looks_up_witness :
  (0 <= 0)%Z /\
  trace (@DomManager.discovery simpleEngine sampleConfig (still loadingPage) 0 200 0)
  = [Callback None; Lookup (Ok None)] /\
  lookups (@DomManager.discovery simpleEngine sampleConfig (still loadingPage) 0 200 0) = 1 /\
  timers (@DomManager.discovery simpleEngine sampleConfig (still loadingPage) 0 200 0)
  = [mkTimer (-200) 200 200].
Proof.
  split; [lia|].
  apply (@expired_call_still_looks_up simpleEngine sampleConfig (still loadingPage) 0 200).
  lia.
Defined.

Lemma absent_session_keeps_polling_witness :
  @DomManager.absentThroughout simpleEngine sampleConfig (still loadingPage) /\
  lookups (@DomManager.discovery simpleEngine sampleConfig (still loadingPage) 200 200 3) = 4 /\
  callbacks (@DomManager.discovery simpleEngine sampleConfig (still loadingPage) 200 200 3)
  = [None; None; None] /\
  timers (@DomManager.discovery simpleEngine sampleConfig (still loadingPage) 200 200 3)
  = [mkTimer (-600) 200 200].
Proof.
  assert (Habsent : @DomManager.absentThroughout simpleEngine sampleConfig (still loadingPage))
    by (intros i; reflexivity).
  split; [exact Habsent|].
  apply (@absent_session_keeps_polling simpleEngine sampleConfig (still loadingPage)
           200 200 3); [lia | lia | exact Habsent].
Defined.

Lemma found_within_budget_witness :
  (safeInteger 1000 /\ safeInteger 200) /\
  @DomManager.firstFoundAt simpleEngine sampleConfig (appearsAt 2) 2 [1; 1] /\
  2 < Z.to_nat (ceilDiv 1000 200) /\
  callbacks (@DomManager.discovery simpleEngine sampleConfig (appearsAt 2) 1000 200 5)
  = [Some [1; 1]] /\
  lookups (@DomManager.discovery simpleEngine sampleConfig (appearsAt 2) 1000 200 5) = 3 /\
  timers (@DomManager.discovery simpleEngine sampleConfig (appearsAt 2) 1000 200 5) = [].
Proof.
  split; [unfold safeInteger; lia|].
  split; [exact (appearsAt_firstFound 2)|].
  split; [vm_compute; lia|].
  apply (@found_within_budget simpleEngine sampleConfig (appearsAt 2) 1000 200 2 5 [1; 1]).
  - unfold safeInteger; lia.
  - unfold safeInteger; lia.
  - lia.
  - lia.
  - exact (appearsAt_firstFound 2).
  - vm_compute; lia.
  - lia.
Defined.

(** C4, on the code: [timeout = 200], [delay = 200], and a container that
    is there from run 2 on, so at the third lookup.  Runs 1 and 2 start on
    the budgets 0 and -200; each calls the callback with [null] and, the
    branch for [timeout <= 0] not returning, looks up all the same.  The
    callback is called three times, with [null], [null] and the element,
    not once with the element. *)
Lemma found_after_budget_counterexample :
  ((0 < 200)%Z /\ (0 < 200)%Z) /\
  @DomManager.firstFoundAt simpleEngine sampleConfig (appearsAt 2) 2 [1; 1] /\
  @DomManager.discovery simpleEngine sampleConfig (appearsAt 2) 200 200 2
  = mkSession
      [Lookup (Ok None); Callback None; Lookup (Ok None);
       Callback None; Lookup (Ok (Some [1; 1])); Callback (Some [1; 1])] [] /\
  callbacks (@DomManager.discovery simpleEngine sampleConfig (appearsAt 2) 200 200 2)
  = [None; None; Some [1; 1]] /\
  callbacks (@DomManager.discovery simpleEngine sampleConfig (appearsAt 2) 200 200 2)
  <> [Some [1; 1]] /\
  @DomManager.discovery simpleEngine sampleConfig (appearsAt 2) 200 200 9
  = @DomManager.discovery simpleEngine sampleConfig (appearsAt 2) 200 200 2.
Proof.
  split; [lia|]. split; [exact (appearsAt_firstFound 2)|].
  split; [reflexivity|]. split; [reflexivity|]. split; [discriminate|reflexivity].
Qed.

(** * Further properties *)

(** ** Handles and tree order *)

Lemma elementPaths_element (t : string) (a : list (string * string))
  (kids : list Node) :
  elementPaths (ElementNode (mkElement t a kids)) = [] :: pathsOfChildren 0 kids.
Proof.
  reflexivity.
Qed.

Lemma elem_of_pathsOfChildren (p : Path) (ks : list Node) :
  forall j,
    p ∈ pathsOfChildren j ks <->
    exists i q k, p = (j + i) :: q /\ ks !! i = Some k /\ q ∈ elementPaths k.
Proof.
  induction ks as [|k ks IH]; intros j; simpl.
  - rewrite elem_of_nil. split; [tauto|]. intros (i & q & k & _ & Hk & _). discriminate.
  - rewrite elem_of_app, list_elem_of_fmap, IH. split.
    + intros [(q & -> & Hq)|(i & q & k' & -> & Hk & Hq)].
      * exists 0, q, k. rewrite Nat.add_0_r. auto.
      * exists (S i), q, k'. split; [f_equal; lia|]. auto.
    + intros (i & q & k' & -> & Hk & Hq). destruct i as [|i]; simpl in Hk.
      * left. exists q. inversion Hk; subst. rewrite Nat.add_0_r. auto.
      * right. exists i, q, k'. split; [f_equal; lia|]. auto.
Qed.

(** The tree-order list holds exactly the paths that lead to an element. *)
Lemma elem_of_elementPaths (p : Path) :
  forall n, p ∈ elementPaths n <-> exists e, nodeAt n p = Some (ElementNode e).
Proof.
  induction p as [|i q IH]; intros n.
  - destruct n as [d|d|[t a kids]]; simpl nodeAt.
    + simpl. rewrite elem_of_nil. split; [tauto|]. intros [e He]. discriminate.
    + simpl. rewrite elem_of_nil. split; [tauto|]. intros [e He]. discriminate.
    + rewrite elementPaths_element. split; [eauto|]. intros _. left.
  - destruct n as [d|d|[t a kids]].
    + simpl. rewrite elem_of_nil. split; [tauto|]. intros [e He]. discriminate.
    + simpl. rewrite elem_of_nil. split; [tauto|]. intros [e He]. discriminate.
    + rewrite elementPaths_element, elem_of_cons, elem_of_pathsOfChildren.
      simpl nodeAt. split.
      * intros [Hnil|(i' & q' & k & Heq & Hk & Hq)]; [discriminate|].
        inversion Heq; subst. rewrite Hk. apply IH, Hq.
      * intros [e He]. right. destruct (kids !! i) as [k|] eqn:Hk; [|discriminate].
        exists i, q, k. split; [reflexivity|]. split; [exact Hk|]. apply IH. eauto.
Qed.

Lemma nodeAt_app (a r : Path) :
  forall n,
    nodeAt n (a ++ r) = match nodeAt n a with Some m => nodeAt m r | None => None end.
Proof.
  induction a as [|i a IH]; intros n; simpl; [reflexivity|].
  destruct n as [d|d|e]; try reflexivity.
  destruct (childNodes e !! i); [apply IH|reflexivity].
Qed.

Lemma elem_of_documentElements (document : Document) (p : Path) :
  p ∈ documentElements document <-> exists e, elementAt document p = Some e.
Proof.
  unfold documentElements, elementAt. rewrite elem_of_elementPaths. split.
  - intros [e He]. rewrite He. eauto.
  - intros [e He]. destruct (nodeAt (root document) p) as [[d|d|e']|]; try discriminate.
    eauto.
Qed.

(** A query on an element ranges over the elements strictly below it. *)
Lemma elem_of_descendantElements (document : Document) (ancestor p : Path) :
  p ∈ descendantElements document ancestor <->
  exists r e, r <> [] /\ p = ancestor ++ r /\ elementAt document p = Some e.
Proof.
  unfold descendantElements, elementAt. split.
  - destruct (nodeAt (root document) ancestor) as [n|] eqn:Hn;
      [|rewrite elem_of_nil; tauto].
    rewrite list_elem_of_fmap. intros (r & -> & Hr).
    assert (Hin : r ∈ elementPaths n /\ r <> []).
    { destruct n as [d|d|[t a kids]];
        try (simpl in Hr; apply elem_of_nil in Hr; tauto).
      rewrite elementPaths_element in Hr |- *. cbn [tail] in Hr.
      split; [now right|]. intros ->.
      apply elem_of_pathsOfChildren in Hr as (i & q & k & Heq & _). discriminate. }
    destruct Hin as [Hin Hne]. apply elem_of_elementPaths in Hin as [e He].
    exists r, e. rewrite nodeAt_app, Hn, He. auto.
  - intros (r & e & Hne & -> & He). rewrite nodeAt_app in He.
    destruct (nodeAt (root document) ancestor) as [n|]; [|discriminate].
    rewrite list_elem_of_fmap. exists r. split; [reflexivity|].
    assert (Hin : r ∈ elementPaths n).
    { apply elem_of_elementPaths. destruct (nodeAt n r) as [[d|d|e']|]; try discriminate.
      eauto. }
    destruct n as [d|d|[t a kids]]; try (simpl in Hin; apply elem_of_nil in Hin; tauto).
    rewrite elementPaths_element in Hin |- *. simpl.
    apply elem_of_cons in Hin as [->|Hin]; [congruence|exact Hin].
Qed.

(** Induction over the tree: an element has a property when its children
    have it. *)
Lemma Node_tree_ind (P : Node -> Prop) :
  (forall d, P (Text d)) ->
  (forall d, P (Comment d)) ->
  (forall t a kids, Forall P kids -> P (ElementNode (mkElement t a kids))) ->
  forall n, P n.
Proof.
  intros Htext Hcomment Helement. fix IH 1.
  intros [d|d|[t a kids]]; [apply Htext | apply Hcomment |].
  apply Helement. induction kids as [|k kids IHkids]; constructor;
    [apply IH | exact IHkids].
Qed.

Lemma NoDup_pathsOfChildren (ks : list Node) :
  Forall (fun k => NoDup (elementPaths k)) ks ->
  forall j, NoDup (pathsOfChildren j ks).
Proof.
  induction 1 as [|k ks Hk _ IH]; intros j; simpl; [constructor|].
  apply NoDup_app. split; [|split].
  - apply (NoDup_fmap_2 _). exact Hk.
  - intros p Hp Hp'. apply list_elem_of_fmap in Hp as (q & -> & _).
    apply elem_of_pathsOfChildren in Hp' as (i & q' & k' & Heq & _).
    inversion Heq. lia.
  - apply IH.
Qed.

(** No element is listed twice in tree order. *)
Lemma NoDup_elementPaths (n : Node) : NoDup (elementPaths n).
Proof.
  induction n as [d|d|t a kids IH] using Node_tree_ind; try constructor.
  - intros Hin. apply elem_of_pathsOfChildren in Hin as (i & q & k & Heq & _).
    discriminate.
  - apply NoDup_pathsOfChildren, IH.
Qed.

(** ** Lookups *)

Section Lookups.
Context {engine : SelectorEngine} (Config : Config.t).

Lemma selectAll_valid (document : Document) (scope : list Path) (query : string) :
  validSelector query = true ->
  selectAll document scope query
  = Ok (filter (fun p => matchesSelector query document p = true) scope).
Proof. intros Hvalid. unfold selectAll. now rewrite Hvalid. Qed.

Lemma selectAll_rejected (document : Document) (scope : list Path) (query : string) :
  validSelector query = false ->
  selectAll document scope query = Throw (SyntaxError query).
Proof. intros Hbad. unfold selectAll. now rewrite Hbad. Qed.

(** The scope a lookup with the optional [ancestor] searches holds only
    handles of elements, and below an ancestor only handles strictly under
    it. *)
Lemma scope_sound (document : Document) (ancestor : option Path) (p : Path) :
  p ∈ match ancestor with
      | None => documentElements document
      | Some ancestor => descendantElements document ancestor
      end ->
  (exists e, elementAt document p = Some e) /\
  match ancestor with
  | None => True
  | Some ancestor => exists r, r <> [] /\ p = ancestor ++ r
  end.
Proof.
  destruct ancestor as [a|].
  - intros (r & e & Hne & -> & He)%elem_of_descendantElements. eauto.
  - intros He%elem_of_documentElements. auto.
Qed.

(** X1. [getElementByQuery] has three outcomes and no other.  It returns
    the first match in tree order, which is an element of the page the
    selector matches and, with an ancestor given, lies strictly below that
    ancestor; it throws the not-found error when the selector is accepted
    and matches nothing in the scope; it passes on the browser's
    [SyntaxError] when the selector is rejected. *)
Theorem getElementByQuery_outcome (document : Document) (query : string)
  (ancestor : option Path) :
  match DomManager.getElementByQuery document query ancestor with
  | Ok elem =>
      validSelector query = true /\
      (exists others, matchesIn document ancestor query = Ok (elem :: others)) /\
      matchesSelector query document elem = true /\
      (exists e, elementAt document elem = Some e) /\
      match ancestor with
      | None => True
      | Some ancestor => exists r, r <> [] /\ elem = ancestor ++ r
      end
  | Throw exn =>
      (exn = Error ("Element not found: " +:+ query) /\
       matchesIn document ancestor query = Ok []) \/
      (exn = SyntaxError query /\ validSelector query = false)
  end.
Proof.
  destruct (validSelector query) eqn:Hvalid.
  - set (scope := match ancestor with
                  | None => documentElements document
                  | Some ancestor => descendantElements document ancestor
                  end).
    assert (Hall : matchesIn document ancestor query
                   = Ok (filter (fun p => matchesSelector query document p = true) scope)).
    { unfold matchesIn, document_querySelectorAll, element_querySelectorAll, scope.
      destruct ancestor; apply selectAll_valid, Hvalid. }
    destruct (filter _ scope) as [|first others] eqn:Hfilter.
    + rewrite (getElementByQuery_not_found _ _ _ Hall). left. auto.
    + rewrite (getElementByQuery_found _ _ _ _ _ Hall).
      assert (Hin : first ∈ filter (fun p => matchesSelector query document p = true) scope)
        by (rewrite Hfilter; left).
      apply list_elem_of_filter in Hin as [Hmatch Hscope].
      apply scope_sound in Hscope as [Helem Hbelow]. eauto 10.
  - rewrite (getElementByQuery_rejected _ _ _ Hvalid). right. auto.
Qed.

(** X2. [fetchTextContent] reads inside the thread only.  With an accepted
    comment-text selector it returns the whole descendant text of the first
    element strictly below the thread that the selector matches (nested
    elements included), or the empty string when no element below the
    thread matches; with a rejected selector it throws the browser's
    [SyntaxError]. *)
Theorem fetchTextContent_scoped (document : Document) (thread : Path) :
  let selector := Config.(Config.dom).(Config.selector).(Config.ytCommentText) in
  if validSelector selector then
    (element_querySelectorAll document thread selector = Ok [] /\
     DomManager.fetchTextContent Config document thread = Ok "") \/
    (exists r e others,
        r <> [] /\
        element_querySelectorAll document thread selector = Ok ((thread ++ r) :: others) /\
        elementAt document (thread ++ r) = Some e /\
        matchesSelector selector document (thread ++ r) = true /\
        DomManager.fetchTextContent Config document thread
        = Ok (descendantText (ElementNode e)))
  else
    DomManager.fetchTextContent Config document thread = Throw (SyntaxError selector).
Proof.
  cbv zeta.
  destruct (validSelector _) eqn:Hvalid.
  - unfold DomManager.fetchTextContent, element_querySelector, element_querySelectorAll.
    rewrite (selectAll_valid _ _ _ Hvalid).
    destruct (filter _ _) as [|first others] eqn:Hfilter.
    + left. auto.
    + right.
      assert (Hin : first ∈ filter
                      (fun p => matchesSelector
                                  Config.(Config.dom).(Config.selector).(Config.ytCommentText)
                                  document p = true)
                      (descendantElements document thread))
        by (rewrite Hfilter; left).
      apply list_elem_of_filter in Hin as [Hmatch Hscope].
      apply elem_of_descendantElements in Hscope as (r & e & Hne & -> & He).
      exists r, e, others. repeat split; try assumption.
      cbn. unfold textContentAt. unfold elementAt in He.
      destruct (nodeAt (root document) (thread ++ r)) as [[d|d|e']|]; try discriminate.
      inversion He; subst. reflexivity.
  - unfold DomManager.fetchTextContent, element_querySelector, element_querySelectorAll.
    now rewrite (selectAll_rejected _ _ _ Hvalid).
Qed.

(** When the engine reads [#id] as the ID selector, asking [querySelector]
    for [#id] and asking [document.getElementById] for [id] is the same. *)
Lemma getElementById_by_id (document : Document) (id : string) :
  idSelector engine id ->
  DomManager.getElementById document id
  = match document_getElementById document id with
    | Some elem => Ok elem
    | None => Throw (Error ("Element not found: " +:+ ("#" +:+ id)))
    end.
Proof.
  intros [Hvalid Hmatches].
  unfold DomManager.getElementById, DomManager.getElementByQuery,
    document_querySelector, document_querySelectorAll, document_getElementById.
  rewrite (selectAll_valid _ _ _ Hvalid).
  rewrite (list_filter_iff
             (fun p => matchesSelector ("#" +:+ id) document p = true)
             (fun p => hasId id document p = true))
    by (intros p; now rewrite Hmatches).
  cbn. destruct (head _); reflexivity.
Qed.

(** X3. With an accepted selector, [findCommentThreads] and [findSortItems]
    list exactly the elements of the page their selector matches, each
    once. *)
Theorem findAll_exact (document : Document) :
  validSelector Config.(Config.dom).(Config.selector).(Config.ytCommentThread) = true ->
  validSelector Config.(Config.dom).(Config.selector).(Config.ytCommentSortItems) = true ->
  exists threads items,
    DomManager.findCommentThreads Config document = Ok threads /\
    DomManager.findSortItems Config document = Ok items /\
    NoDup threads /\ NoDup items /\
    (forall p, p ∈ threads <->
               (exists e, elementAt document p = Some e) /\
               matchesSelector Config.(Config.dom).(Config.selector).(Config.ytCommentThread)
                 document p = true) /\
    (forall p, p ∈ items <->
               (exists e, elementAt document p = Some e) /\
               matchesSelector Config.(Config.dom).(Config.selector).(Config.ytCommentSortItems)
                 document p = true).
Proof.
  intros Hthreads Hitems.
  unfold DomManager.findCommentThreads, DomManager.findSortItems,
    document_querySelectorAll.
  rewrite (selectAll_valid _ _ _ Hthreads), (selectAll_valid _ _ _ Hitems).
  eexists; eexists. split; [reflexivity|]. split; [reflexivity|].
  split; [apply NoDup_filter, NoDup_elementPaths|].
  split; [apply NoDup_filter, NoDup_elementPaths|].
  split; intros p; rewrite list_elem_of_filter, elem_of_documentElements; tauto.
Qed.

(** X4. With accepted selectors, [findCommentContainer] and
    [findCommentHeader] miss nothing that is on the page: each answers
    [null] exactly when no element of the page matches its selector, and
    what it answers otherwise is an element of the page that the selector
    matches. *)
Theorem find_single_exact (document : Document) :
  validSelector Config.(Config.dom).(Config.selector).(Config.ytCommentContainer) = true ->
  validSelector Config.(Config.dom).(Config.selector).(Config.ytCommentTitle) = true ->
  (DomManager.findCommentContainer Config document = Ok None <->
   forall p e, elementAt document p = Some e ->
               matchesSelector Config.(Config.dom).(Config.selector).(Config.ytCommentContainer)
                 document p = false) /\
  (DomManager.findCommentHeader Config document = Ok None <->
   forall p e, elementAt document p = Some e ->
               matchesSelector Config.(Config.dom).(Config.selector).(Config.ytCommentTitle)
                 document p = false) /\
  (forall elem,
      DomManager.findCommentContainer Config document = Ok (Some elem) ->
      (exists e, elementAt document elem = Some e) /\
      matchesSelector Config.(Config.dom).(Config.selector).(Config.ytCommentContainer)
        document elem = true) /\
  (forall elem,
      DomManager.findCommentHeader Config document = Ok (Some elem) ->
      (exists e, elementAt document elem = Some e) /\
      matchesSelector Config.(Config.dom).(Config.selector).(Config.ytCommentTitle)
        document elem = true).
Proof.
  intros Hcontainer Htitle.
  assert (Hnone : forall query,
             head (filter (fun p => matchesSelector query document p = true)
                     (documentElements document)) = None <->
             forall p e, elementAt document p = Some e ->
                         matchesSelector query document p = false).
  { intros query. rewrite head_None. split.
    - intros Hnil p e He.
      destruct (matchesSelector query document p) eqn:Hmatch; [|reflexivity].
      exfalso. eapply (filter_nil_not_elem_of _ _ p Hnil); [exact Hmatch|].
      apply elem_of_documentElements. eauto.
    - intros Hall. apply elem_of_nil_inv. intros p [Hmatch Hin]%list_elem_of_filter.
      apply elem_of_documentElements in Hin as [e He].
      rewrite (Hall p e He) in Hmatch. discriminate. }
  assert (Hsome : forall query elem,
             head (filter (fun p => matchesSelector query document p = true)
                     (documentElements document)) = Some elem ->
             (exists e, elementAt document elem = Some e) /\
             matchesSelector query document elem = true).
  { intros query elem [Hmatch Hin]%head_Some_elem_of%list_elem_of_filter.
    apply elem_of_documentElements in Hin. auto. }
  unfold DomManager.findCommentContainer, DomManager.findCommentHeader,
    document_querySelector, document_querySelectorAll.
  rewrite (selectAll_valid _ _ _ Hcontainer), (selectAll_valid _ _ _ Htitle).
  cbn [mbind Result_bind mret Result_ret].
  split; [|split; [|split]].
  - split; [intros Heq; apply Hnone; now inversion Heq
           | intros Hall; f_equal; now apply Hnone].
  - split; [intros Heq; apply Hnone; now inversion Heq
           | intros Hall; f_equal; now apply Hnone].
  - intros elem Heq. apply Hsome. now inversion Heq.
  - intros elem Heq. apply Hsome. now inversion Heq.
Qed.

End Lookups.

Lemma findAll_exact_witness :
  (@validSelector simpleEngine "ytd-comment-thread-renderer" = true /\
   @validSelector simpleEngine "tp-yt-paper-item" = true) /\
  exists threads items,
    @DomManager.findCommentThreads simpleEngine sampleConfig readyPage = Ok threads /\
    @DomManager.findSortItems simpleEngine sampleConfig readyPage = Ok items /\
    NoDup threads /\ NoDup items /\
    (forall p, p ∈ threads <->
               (exists e, elementAt readyPage p = Some e) /\
               @matchesSelector simpleEngine "ytd-comment-thread-renderer" readyPage p = true) /\
    (forall p, p ∈ items <->
               (exists e, elementAt readyPage p = Some e) /\
               @matchesSelector simpleEngine "tp-yt-paper-item" readyPage p = true).
Proof.
  split; [split; reflexivity|].
  apply (@findAll_exact simpleEngine sampleConfig readyPage); reflexivity.
Defined.

Lemma find_single_exact_witness :
  (@validSelector simpleEngine "ytd-comments" = true /\
   @validSelector simpleEngine "h2" = true) /\
  @DomManager.findCommentContainer simpleEngine sampleConfig readyPage = Ok (Some [1; 1]) /\
  @matchesSelector simpleEngine "ytd-comments" readyPage [1; 1] = true /\
  (forall p e, elementAt readyPage p = Some e ->
               @matchesSelector simpleEngine "h2" readyPage p = false).
Proof.
  split; [split; reflexivity|].
  destruct (@find_single_exact simpleEngine sampleConfig readyPage eq_refl eq_refl)
    as (_ & Hheader & Hfound & _).
  split; [reflexivity|]. split.
  - apply (Hfound [1; 1]). reflexivity.
  - apply Hheader. reflexivity.
Defined.

(** ** Discovery sessions in general *)

Lemma callbackArgs_expired (t : Z) :
  callbackArgs (expired t) = replicate (if (t <=? 0)%Z then 1 else 0) None.
Proof. unfold expired. destruct (t <=? 0)%Z; reflexivity. Qed.

(** Runs that find nothing pass nothing but [null]. *)
Lemma callbackArgs_absentTrace_nulls (t d : Z) (n : nat) :
  exists nulls, callbackArgs (absentTrace t d n) = replicate nulls None.
Proof.
  revert t. induction n as [|n IH]; intros t; [now exists 0|].
  destruct (IH (t - d)%Z) as [m Hm]. simpl absentTrace.
  change (Lookup (Ok None) :: absentTrace (t - d) d n)
    with ([Lookup (Ok None)] ++ absentTrace (t - d) d n).
  rewrite !callbackArgs_app, Hm, callbackArgs_expired.
  exists ((if (t <=? 0)%Z then 1 else 0) + m). cbn [callbackArgs omap app].
  now rewrite replicate_add.
Qed.

(** With a delay that is not positive a positive budget never runs out. *)
Lemma callbackArgs_absentTrace_frozen (t d : Z) (n : nat) :
  (0 < t)%Z -> (d <= 0)%Z -> callbackArgs (absentTrace t d n) = [].
Proof.
  revert t. induction n as [|n IH]; intros t Ht Hd; [reflexivity|].
  simpl absentTrace. unfold expired.
  destruct (Z.leb_spec t 0) as [Hle|_]; [lia|].
  cbn [app]. change (Lookup (Ok None) :: absentTrace (t - d) d n)
    with ([Lookup (Ok None)] ++ absentTrace (t - d) d n).
  rewrite callbackArgs_app, IH by lia. reflexivity.
Qed.

Section Sessions.
Context {engine : SelectorEngine} (Config : Config.t).

Lemma withCommentContainer_answered (document : Document) (timeout delay : Z)
  (s : Session) :
  DomManager.findCommentContainer Config document <> Ok None ->
  (DomManager.withCommentContainer Config document timeout delay s).2
  = mkSession
      (trace s ++ expired timeout
         ++ Lookup (DomManager.findCommentContainer Config document)
         :: delivery (DomManager.findCommentContainer Config document))
      (timers s).
Proof.
  intros Hanswer. unfold DomManager.withCommentContainer, expired.
  destruct (DomManager.findCommentContainer Config document) as [[elem|]|exn];
    [| congruence |];
    destruct (timeout <=? 0)%Z;
    cbv [mbind mret Task_bind Task_ret callback emit attempt setTimeout]; cbn;
    rewrite <- ?app_assoc; reflexivity.
Qed.

Lemma eventLoop_answered (page : nat -> Document) (k : nat) :
  forall (run fuel : nat) (t d : Z) (events : list Event),
    (forall i, i < k -> DomManager.findCommentContainer Config (page (run + i)) = Ok None) ->
    DomManager.findCommentContainer Config (page (run + k)) <> Ok None ->
    k < fuel ->
    DomManager.eventLoop Config page run fuel (mkSession events [mkTimer t d d])
    = mkSession
        (events ++ absentTrace t d k ++ expired (t - Z.of_nat k * d)
           ++ Lookup (DomManager.findCommentContainer Config (page (run + k)))
           :: delivery (DomManager.findCommentContainer Config (page (run + k)))) [].
Proof.
  induction k as [|k IH]; intros run fuel t d events Habsent Hanswer Hfuel;
    (destruct fuel as [|fuel]; [lia|]).
  - replace (t - Z.of_nat 0 * d)%Z with t by lia.
    rewrite Nat.add_0_r in *.
    simpl DomManager.eventLoop. cbn [timers trace timerTimeout timerDelay].
    rewrite (withCommentContainer_answered _ _ _ _ Hanswer).
    rewrite eventLoop_settled by reflexivity. reflexivity.
  - replace (t - Z.of_nat (S k) * d)%Z with (t - d - Z.of_nat k * d)%Z by lia.
    simpl DomManager.eventLoop. cbn [timers trace timerTimeout timerDelay].
    rewrite withCommentContainer_absent
      by (specialize (Habsent 0); rewrite Nat.add_0_r in Habsent; apply Habsent; lia).
    cbn [snd trace timers app].
    replace (run + S k) with (S run + k) by lia.
    rewrite (IH (S run) fuel).
    + simpl absentTrace. rewrite <- !app_assoc. reflexivity.
    + intros i Hi. replace (S run + i) with (run + S i) by lia. apply Habsent. lia.
    + replace (S run + k) with (run + S k) by lia. exact Hanswer.
    + lia.
Qed.

(** On a page that shows no container up to run [fuel], the session has
    looked up in every run and has one timer armed. *)
Lemma discovery_absent_upto (page : nat -> Document) (t d : Z) (fuel : nat) :
  (forall i, i <= fuel -> DomManager.findCommentContainer Config (page i) = Ok None) ->
  DomManager.discovery Config page t d fuel
  = mkSession (absentTrace t d (S fuel))
      [mkTimer (t - Z.of_nat (S fuel) * d) d d].
Proof.
  intros Habsent. unfold DomManager.discovery.
  replace (t - Z.of_nat (S fuel) * d)%Z with (t - d - Z.of_nat fuel * d)%Z by lia.
  rewrite (withCommentContainer_absent _ _ _ _ _ (Habsent 0 ltac:(lia))).
  cbn [snd trace timers newSession app].
  rewrite eventLoop_absent by (intros i Hi; apply Habsent; simpl; lia).
  simpl absentTrace. rewrite <- !app_assoc. reflexivity.
Qed.

(** A session whose run [k] is the first with an answer other than [null]
    (an element or an exception) ends in that run. *)
Lemma discovery_answered (page : nat -> Document) (t d : Z) (k fuel : nat) :
  (forall i, i < k -> DomManager.findCommentContainer Config (page i) = Ok None) ->
  DomManager.findCommentContainer Config (page k) <> Ok None ->
  k <= fuel ->
  DomManager.discovery Config page t d fuel
  = mkSession
      (absentTrace t d k ++ expired (t - Z.of_nat k * d)
         ++ Lookup (DomManager.findCommentContainer Config (page k))
         :: delivery (DomManager.findCommentContainer Config (page k))) [].
Proof.
  intros Habsent Hanswer Hfuel. unfold DomManager.discovery.
  destruct k as [|k].
  - replace (t - Z.of_nat 0 * d)%Z with t by lia.
    rewrite (withCommentContainer_answered _ _ _ _ Hanswer).
    rewrite eventLoop_settled by reflexivity. reflexivity.
  - replace (t - Z.of_nat (S k) * d)%Z with (t - d - Z.of_nat k * d)%Z by lia.
    rewrite withCommentContainer_absent by (apply Habsent; lia).
    cbn [snd trace timers newSession app].
    rewrite (eventLoop_answered page k 1 fuel).
    + simpl absentTrace. rewrite <- !app_assoc. reflexivity.
    + intros i Hi. apply Habsent. simpl. lia.
    + exact Hanswer.
    + lia.
Qed.

Lemma answer_dec (document : Document) :
  {DomManager.findCommentContainer Config document = Ok None}
  + {DomManager.findCommentContainer Config document <> Ok None}.
Proof.
  destruct (DomManager.findCommentContainer Config document) as [[elem|]|exn];
    [right; discriminate | left; reflexivity | right; discriminate].
Qed.

(** Up to any run, either no run has an answer or there is a first that has. *)
Lemma first_answer (page : nat -> Document) (n : nat) :
  (forall i, i <= n -> DomManager.findCommentContainer Config (page i) = Ok None) \/
  (exists k, k <= n /\
             (forall i, i < k -> DomManager.findCommentContainer Config (page i) = Ok None) /\
             DomManager.findCommentContainer Config (page k) <> Ok None).
Proof.
  induction n as [|n [IH|(k & Hk & Habsent & Hanswer)]].
  - destruct (answer_dec (page 0)) as [Hnone|Hanswer].
    + left. intros i Hi. replace i with 0 by lia. exact Hnone.
    + right. exists 0. split; [lia|]. split; [intros i Hi; lia | exact Hanswer].
  - destruct (answer_dec (page (S n))) as [Hnone|Hanswer].
    + left. intros i Hi. destruct (decide (i = S n)) as [->|Hne];
        [exact Hnone | apply IH; lia].
    + right. exists (S n). split; [lia|].
      split; [intros i Hi; apply IH; lia | exact Hanswer].
  - right. exists k. split; [lia|]. auto.
Qed.

(** The two shapes of a session after [fuel] timers, whatever the page
    does: still polling, or ended in the first run with an answer. *)
Lemma discovery_shape (page : nat -> Document) (t d : Z) (fuel : nat) :
  DomManager.discovery Config page t d fuel
  = mkSession (absentTrace t d (S fuel)) [mkTimer (t - Z.of_nat (S fuel) * d) d d] \/
  (exists k, k <= fuel /\
     DomManager.findCommentContainer Config (page k) <> Ok None /\
     DomManager.discovery Config page t d fuel
     = mkSession
         (absentTrace t d k ++ expired (t - Z.of_nat k * d)
            ++ Lookup (DomManager.findCommentContainer Config (page k))
            :: delivery (DomManager.findCommentContainer Config (page k))) []).
Proof.
  destruct (first_answer page fuel) as [Habsent|(k & Hk & Habsent & Hanswer)].
  - left. apply discovery_absent_upto, Habsent.
  - right. exists k. split; [exact Hk|]. split; [exact Hanswer|].
    apply discovery_answered; assumption.
Qed.

End Sessions.

Section SessionProperties.
Context {engine : SelectorEngine} (Config : Config.t).

Lemma findCommentContainer_valid (document : Document) :
  validSelector Config.(Config.dom).(Config.selector).(Config.ytCommentContainer) = true ->
  exists answer, DomManager.findCommentContainer Config document = Ok answer.
Proof.
  intros Hvalid. unfold DomManager.findCommentContainer, document_querySelector,
    document_querySelectorAll.
  rewrite (selectAll_valid _ _ _ Hvalid). cbn. eauto.
Qed.

Lemma findCommentContainer_rejected (document : Document) :
  validSelector Config.(Config.dom).(Config.selector).(Config.ytCommentContainer) = false ->
  DomManager.findCommentContainer Config document
  = Throw (SyntaxError Config.(Config.dom).(Config.selector).(Config.ytCommentContainer)).
Proof.
  intros Hbad. unfold DomManager.findCommentContainer, document_querySelector,
    document_querySelectorAll.
  now rewrite (selectAll_rejected _ _ _ Hbad).
Qed.

(** X5. Whatever the page does and whatever the arguments are, the callback
    receives the element at most once, as its last call; every call before
    it passes [null]; the element is one a lookup of the session found, and
    once it is delivered no timer is armed. *)
Theorem element_delivered_once_and_last (page : nat -> Document) (t d : Z)
  (fuel : nat) :
  exists nulls,
    callbacks (DomManager.discovery Config page t d fuel) = replicate nulls None \/
    (exists elem k,
        callbacks (DomManager.discovery Config page t d fuel)
        = replicate nulls None ++ [Some elem] /\
        k <= fuel /\
        DomManager.findCommentContainer Config (page k) = Ok (Some elem) /\
        timers (DomManager.discovery Config page t d fuel) = []).
Proof.
  destruct (discovery_shape Config page t d fuel) as [->|(k & Hk & Hanswer & ->)];
    unfold callbacks; cbn [trace timers].
  - destruct (callbackArgs_absentTrace_nulls t d (S fuel)) as [m Hm].
    exists m. left. exact Hm.
  - destruct (callbackArgs_absentTrace_nulls t d k) as [m Hm].
    exists (m + (if (t - Z.of_nat k * d <=? 0)%Z then 1 else 0)).
    rewrite !callbackArgs_app, Hm, callbackArgs_expired, app_assoc, <- replicate_add.
    destruct (DomManager.findCommentContainer Config (page k)) as [[elem|]|exn] eqn:Hfind.
    + right. exists elem, k. auto.
    + congruence.
    + left. cbn. now rewrite app_nil_r.
Qed.

(** X6. At most one retry is pending at any time, whatever the page does
    and whatever the arguments are.  While the session polls it has made
    one lookup per run and has exactly one timer armed, which passes the
    delay on unchanged and fires after it; once no timer is pending the
    session has made at least one lookup and at most one per run.  When the
    timeout, the delay and the initial budget less one delay per run made
    are integers a JavaScript number holds exactly, the armed timer carries
    that budget. *)
Theorem one_timer_at_most (page : nat -> Document) (t d : Z) (fuel : nat) :
  (exists budget,
      timers (DomManager.discovery Config page t d fuel) = [mkTimer budget d d] /\
      lookups (DomManager.discovery Config page t d fuel) = S fuel /\
      (safeInteger t -> safeInteger d -> safeInteger (t - Z.of_nat (S fuel) * d) ->
       budget = (t - Z.of_nat (S fuel) * d)%Z)) \/
  (timers (DomManager.discovery Config page t d fuel) = [] /\
   1 <= lookups (DomManager.discovery Config page t d fuel) <= S fuel).
Proof.
  destruct (discovery_shape Config page t d fuel) as [->|(k & Hk & Hanswer & ->)];
    unfold lookups; cbn [trace timers].
  - left. exists (t - Z.of_nat (S fuel) * d)%Z.
    rewrite lookupCount_absentTrace. auto.
  - right. split; [reflexivity|].
    change (Lookup (DomManager.findCommentContainer Config (page k))
              :: delivery (DomManager.findCommentContainer Config (page k)))
      with ([Lookup (DomManager.findCommentContainer Config (page k))]
              ++ delivery (DomManager.findCommentContainer Config (page k))).
    rewrite !lookupCount_app, lookupCount_absentTrace, lookupCount_expired.
    assert (Hd : lookupCount (delivery (DomManager.findCommentContainer Config (page k))) = 0)
      by (destruct (DomManager.findCommentContainer Config (page k)) as [[elem|]|exn];
          reflexivity).
    rewrite Hd.
    change (lookupCount [Lookup (DomManager.findCommentContainer Config (page k))]) with 1.
    lia.
Qed.

(** X7. With a timeout and a positive delay that are integers a JavaScript
    number holds exactly, and a container selector the browser accepts, the
    caller always hears back: whatever the page does, the callback has been
    called at least once when [ceil (t / d)] timers have fired. *)
Theorem callback_called_in_time (page : nat -> Document) (t d : Z) (fuel : nat) :
  safeInteger t -> safeInteger d ->
  (0 < d)%Z ->
  validSelector Config.(Config.dom).(Config.selector).(Config.ytCommentContainer) = true ->
  Z.to_nat (ceilDiv t d) <= fuel ->
  1 <= length (callbacks (DomManager.discovery Config page t d fuel)).
Proof.
  intros _ _ Hd Hvalid Hfuel.
  destruct (discovery_shape Config page t d fuel) as [->|(k & Hk & Hanswer & ->)];
    unfold callbacks; cbn [trace].
  - rewrite callbackArgs_absentTrace, length_replicate by assumption. lia.
  - rewrite !callbackArgs_app, !length_app.
    destruct (findCommentContainer_valid (page k) Hvalid) as [[elem|] Hfind];
      rewrite Hfind in *; [|congruence].
    cbn. lia.
Qed.

(** X8. A delay that is zero or negative switches the time limit off: with
    a positive timeout, for as long as the page shows no container the
    callback is not called at all, every run looks up, and a timer with an
    undiminished or grown budget is armed again. *)
Theorem nonpositive_delay_never_times_out (page : nat -> Document) (t d : Z)
  (fuel : nat) :
  (0 < t)%Z -> (d <= 0)%Z ->
  (forall i, i <= fuel -> DomManager.findCommentContainer Config (page i) = Ok None) ->
  callbacks (DomManager.discovery Config page t d fuel) = [] /\
  lookups (DomManager.discovery Config page t d fuel) = S fuel /\
  timers (DomManager.discovery Config page t d fuel)
  = [mkTimer (t - Z.of_nat (S fuel) * d) d d] /\
  (t <= t - Z.of_nat (S fuel) * d)%Z.
Proof.
  intros Ht Hd Habsent. rewrite (discovery_absent_upto Config page t d fuel Habsent).
  unfold callbacks, lookups. cbn [trace timers].
  rewrite callbackArgs_absentTrace_frozen, lookupCount_absentTrace by assumption.
  repeat split. nia.
Qed.

(** X9. When the browser rejects the configured container selector, the
    first lookup throws out of [withCommentContainer]: the session is over
    after one lookup with no timer armed, and the callback has been called
    only if the timeout was not positive (once, with [null]); with a
    positive timeout the caller never hears back. *)
Theorem rejected_selector_ends_session (page : nat -> Document) (t d : Z)
  (fuel : nat) :
  validSelector Config.(Config.dom).(Config.selector).(Config.ytCommentContainer) = false ->
  trace (DomManager.discovery Config page t d fuel)
  = expired t
      ++ [Lookup (Throw (SyntaxError
                           Config.(Config.dom).(Config.selector).(Config.ytCommentContainer)))] /\
  timers (DomManager.discovery Config page t d fuel) = [] /\
  callbacks (DomManager.discovery Config page t d fuel)
  = (if (t <=? 0)%Z then [None] else []).
Proof.
  intros Hbad.
  assert (Hfind := findCommentContainer_rejected (page 0) Hbad).
  rewrite (discovery_answered Config page t d 0 fuel);
    [| intros i Hi; lia | rewrite Hfind; discriminate | lia].
  unfold callbacks. cbn [trace timers]. rewrite Hfind.
  replace (t - Z.of_nat 0 * d)%Z with t by lia.
  repeat split. unfold expired. destruct (t <=? 0)%Z; reflexivity.
Qed.

End SessionProperties.

Lemma callback_called_in_time_witness :
  (safeInteger 1000 /\ safeInteger 200) /\
  (0 < 200)%Z /\
  Z.to_nat (ceilDiv 1000 200) <= 5 /\
  1 <= length (callbacks (@DomManager.discovery simpleEngine sampleConfig
                            (appearsAt 7) 1000 200 5)).
Proof.
  split; [unfold safeInteger; lia|].
  split; [lia|]. split; [vm_compute; lia|].
  apply (@callback_called_in_time simpleEngine sampleConfig (appearsAt 7) 1000 200 5).
  - unfold safeInteger; lia.
  - unfold safeInteger; lia.
  - lia.
  - reflexivity.
  - vm_compute; lia.
Defined.

Lemma nonpositive_delay_never_times_out_witness :
  ((0 < 1000)%Z /\ (0 <= 0)%Z) /\
  callbacks (@DomManager.discovery simpleEngine sampleConfig (still loadingPage) 1000 0 6)
  = [] /\
  lookups (@DomManager.discovery simpleEngine sampleConfig (still loadingPage) 1000 0 6)
  = 7 /\
  timers (@DomManager.discovery simpleEngine sampleConfig (still loadingPage) 1000 0 6)
  = [mkTimer 1000 0 0].
Proof.
  split; [lia|].
  destruct (@nonpositive_delay_never_times_out simpleEngine sampleConfig
              (still loadingPage) 1000 0 6) as (Hcalls & Hlookups & Htimers & _).
  - lia.
  - lia.
  - intros i Hi. reflexivity.
  - auto.
Defined.

Lemma rejected_selector_ends_session_witness :
  @validSelector simpleEngine "" = false /\
  trace (@DomManager.discovery simpleEngine brokenConfig (still readyPage) 30000 200 4)
  = [Lookup (Throw (SyntaxError ""))] /\
  callbacks (@DomManager.discovery simpleEngine brokenConfig (still readyPage) 30000 200 4)
  = [].
Proof.
  split; [reflexivity|].
  destruct (@rejected_selector_ends_session simpleEngine brokenConfig (still readyPage)
              30000 200 4 eq_refl) as (Htrace & _ & Hcalls).
  auto.
Defined.

(** ** Mutation utilities, continued *)

Lemma append_empty_r (s : string) : s +:+ "" = s.
Proof.
  induction s as [|c s IH]; [reflexivity|].
  change (String c s +:+ "") with (String c (s +:+ "")). now rewrite IH.
Qed.

Lemma descendantText_element (t : string) (a : list (string * string))
  (kids : list Node) :
  descendantText (ElementNode (mkElement t a kids)) = textOfChildren kids.
Proof. reflexivity. Qed.

(** X10. [replaceText] keeps the tag, the attributes and the number of
    children of the element (an element without children gets its one text
    node), and a second call overrides the first: calling it with [text1]
    and then [text2] leaves what calling it with [text2] alone leaves. *)
Theorem replaceText_last_write_wins (elem : HTMLElement) (text1 text2 : string) :
  DomManager.replaceText (DomManager.replaceText elem text1) text2
  = DomManager.replaceText elem text2 /\
  tagName (DomManager.replaceText elem text1) = tagName elem /\
  attributes (DomManager.replaceText elem text1) = attributes elem /\
  length (childNodes (DomManager.replaceText elem text1))
  = Nat.max 1 (length (childNodes elem)).
Proof.
  destruct elem as [t a [|first siblings]]; [repeat split|].
  destruct first as [d|d|e]; repeat split.
Qed.

(** X11. What [replaceText] does to the text a reader sees.  On an element
    without children the text content becomes the new text; with a text
    node first it becomes the new text followed by the text of the other
    children; with a comment or an element first it stays what it was. *)
Theorem replaceText_textContent (elem : HTMLElement) (text : string) :
  textContent (ElementNode (DomManager.replaceText elem text))
  = match childNodes elem with
    | [] => Some text
    | Text _ :: siblings => Some (text +:+ textOfChildren siblings)
    | _ => textContent (ElementNode elem)
    end.
Proof.
  destruct elem as [t a [|first siblings]].
  - cbn. change (String.append text "") with (text +:+ ""). now rewrite append_empty_r.
  - destruct first as [d|d|e]; reflexivity.
Qed.

(** X12. Clearing first makes [replaceText] set the text of any element:
    after [clearChildElements] and [replaceText] the element has the new
    text node as its only child and the new text as its text content,
    whatever it held before. *)
Theorem replaceText_after_clear (elem : HTMLElement) (text : string) :
  DomManager.replaceText (DomManager.clearChildElements elem) text
  = withChildNodes elem [Text text] /\
  textContent (ElementNode (DomManager.replaceText (DomManager.clearChildElements elem) text))
  = Some text.
Proof.
  rewrite clearChildElements_eq. destruct elem as [t a kids].
  split; [reflexivity|]. cbn. now rewrite append_empty_r.
Qed.

(** ** Builders *)

Section BuilderProperties.
Context {factory : ElementFactory}.

(** X13. The builders that take a text keep it in one text node that
    [replaceText] maintains.  For [createElementWithText], [createAnchor],
    [createOption] and the label of [createCheckbox]: the text content of
    what is built is the text given, and [replaceText] on it gives what the
    same builder makes of the new text, attributes included; the builder
    throws for every text or for none. *)
Theorem text_builders_hold_text (tagName href value id : string)
  (target : option string) (checked : bool) :
  textHolder (DomManager.createElementWithText tagName) /\
  textHolder (fun text => DomManager.createAnchor href text target) /\
  textHolder (DomManager.createOption value) /\
  textHolder (fun text =>
                built ← DomManager.createCheckbox id checked text; mret (label built)).
Proof.
  repeat split; intros text text';
    unfold DomManager.createElementWithText, DomManager.createAnchor,
      DomManager.createOption, DomManager.createCheckbox,
      DomManager.createElementWithText, createElement;
    repeat match goal with
           | |- context [validName ?name] => destruct (validName name)
           end; cbn;
    repeat split;
    change (String.append text "") with (text +:+ "");
    now rewrite ?append_empty_r.
Qed.

End BuilderProperties.

(** ** Searching an ID, and attaching a fragment *)

Lemma hasId_idAt (id : string) (document : Document) (p : Path) :
  hasId id document p = idAt id (root document) p.
Proof.
  unfold hasId, idAt, elementAt, ownId.
  destruct (nodeAt (root document) p) as [[d|d|e]|]; reflexivity.
Qed.

Lemma filter_fmap_cons (P : Path -> Prop) `{!forall p, Decision (P p)} (j : nat)
  (l : list Path) :
  filter P ((j ::.) <$> l) = (j ::.) <$> filter (fun q => P (j :: q)) l.
Proof.
  induction l as [|q l IH]; [reflexivity|].
  rewrite fmap_cons, !filter_cons.
  destruct (decide (P (j :: q))); [rewrite fmap_cons; f_equal|]; exact IH.
Qed.

Lemma pathsOfChildren_cons (j : nat) (k : Node) (ks : list Node) :
  pathsOfChildren j (k :: ks)
  = ((j ::.) <$> elementPaths k) ++ pathsOfChildren (S j) ks.
Proof. reflexivity. Qed.

Lemma searchChildren_cons (search : Node -> option Path) (j : nat) (k : Node)
  (ks : list Node) :
  searchChildren search j (k :: ks)
  = match search k with
    | Some r => Some (j :: r)
    | None => searchChildren search (S j) ks
    end.
Proof. reflexivity. Qed.

Lemma searchId_element (id t : string) (a : list (string * string))
  (kids : list Node) :
  searchId id (ElementNode (mkElement t a kids))
  = if ownId id (mkElement t a kids) then Some []
    else searchChildren (searchId id) 0 kids.
Proof. reflexivity. Qed.

(** Searching the children one by one finds the first match of the
    tree-order list of their elements. *)
Lemma head_filter_pathsOfChildren (id t : string) (a : list (string * string))
  (ks : list Node) :
  Forall (fun k => head (filter (fun p => idAt id k p = true) (elementPaths k))
                   = searchId id k) ks ->
  forall pre,
    head (filter (fun p => idAt id (ElementNode (mkElement t a (pre ++ ks))) p = true)
            (pathsOfChildren (length pre) ks))
    = searchChildren (searchId id) (length pre) ks.
Proof.
  induction 1 as [|k ks Hk _ IH]; intros pre; [reflexivity|].
  rewrite pathsOfChildren_cons, searchChildren_cons, filter_app, head_app.
  rewrite filter_fmap_cons.
  rewrite (list_filter_iff _ (fun q => idAt id k q = true)).
  - rewrite <- Hk. destruct (filter _ (elementPaths k)) as [|r rs]; [|reflexivity].
    cbn [fmap list_fmap head].
    specialize (IH (pre ++ [k])). rewrite <- app_assoc, length_app in IH.
    cbn [app length] in IH. rewrite Nat.add_1_r in IH. exact IH.
  - intros q. unfold idAt. cbn [nodeAt childNodes].
    rewrite list_lookup_middle by reflexivity. reflexivity.
Qed.

Lemma searchId_first (id : string) (n : Node) :
  head (filter (fun p => idAt id n p = true) (elementPaths n)) = searchId id n.
Proof.
  induction n as [d|d|t a kids IH] using Node_tree_ind; try reflexivity.
  rewrite elementPaths_element, searchId_element, filter_cons.
  change (idAt id (ElementNode (mkElement t a kids)) [])
    with (ownId id (mkElement t a kids)).
  destruct (ownId id (mkElement t a kids)) eqn:Hown.
  - rewrite decide_True by reflexivity. reflexivity.
  - rewrite decide_False by discriminate.
    apply (head_filter_pathsOfChildren id t a kids IH []).
Qed.

(** [document.getElementById] is the search down the tree. *)
Lemma document_getElementById_searchId (document : Document) (id : string) :
  document_getElementById document id = searchId id (root document).
Proof.
  unfold document_getElementById, documentElements.
  rewrite <- searchId_first. f_equal. apply list_filter_iff.
  intros p. now rewrite hasId_idAt.
Qed.

Lemma searchChildren_None (search : Node -> option Path) (ks : list Node) :
  forall j, searchChildren search j ks = None <-> Forall (fun k => search k = None) ks.
Proof.
  induction ks as [|k ks IH]; intros j.
  - split; [constructor | reflexivity].
  - rewrite searchChildren_cons, Forall_cons. destruct (search k) as [r|].
    + split; [discriminate | intros [Hk _]; discriminate].
    + rewrite IH. tauto.
Qed.

Lemma searchChildren_skip (search : Node -> option Path) (ks1 ks2 : list Node) :
  Forall (fun k => search k = None) ks1 ->
  forall j,
    searchChildren search j (ks1 ++ ks2)
    = searchChildren search (j + length ks1) ks2.
Proof.
  induction 1 as [|k ks1 Hk _ IH]; intros j; simpl app.
  - now rewrite Nat.add_0_r.
  - rewrite searchChildren_cons, Hk, IH. f_equal. simpl. lia.
Qed.

(** Among children of which none holds a match, replacing child [i] makes
    the search find what it finds under the new child. *)
Lemma searchChildren_insert (search : Node -> option Path) (ks : list Node)
  (i : nat) (k' : Node) :
  Forall (fun k => search k = None) ks ->
  i < length ks ->
  searchChildren search 0 (<[i := k']> ks) = (i ::.) <$> search k'.
Proof.
  intros Hnone Hi. rewrite insert_take_drop by exact Hi.
  rewrite searchChildren_skip by (apply Forall_take, Hnone).
  rewrite length_take_le by lia. rewrite searchChildren_cons. simpl.
  destruct (search k') as [r|]; [reflexivity|].
  apply searchChildren_None, Forall_drop, Hnone.
Qed.

(** Appending a child to an element of a tree that holds no element with
    the ID: the search then finds what it finds in the new child, there. *)
Lemma searchId_appendChildAt (id : string) (child : Node) (parent : Path) :
  forall (n : Node) (parentElem : HTMLElement),
    nodeAt n parent = Some (ElementNode parentElem) ->
    searchId id n = None ->
    searchId id (appendChildAt n parent child)
    = (fun r => parent ++ length (childNodes parentElem) :: r) <$> searchId id child.
Proof.
  induction parent as [|i parent IH]; intros n parentElem Hparent Hnone.
  - simpl in Hparent. inversion Hparent; subst n. destruct parentElem as [t a kids].
    rewrite searchId_element in Hnone. cbn [appendChildAt].
    unfold appendChild, withChildNodes. cbn [tagName attributes childNodes].
    rewrite searchId_element.
    change (ownId id (mkElement t a (kids ++ [child])))
      with (ownId id (mkElement t a kids)).
    destruct (ownId id (mkElement t a kids)); [discriminate|].
    apply searchChildren_None in Hnone.
    rewrite (searchChildren_skip _ _ _ Hnone), searchChildren_cons. simpl.
    destruct (searchId id child); reflexivity.
  - destruct n as [d|d|[t a kids]]; try discriminate.
    cbn [nodeAt childNodes] in Hparent. cbn [appendChildAt childNodes].
    destruct (kids !! i) as [k|] eqn:Hk; [|discriminate].
    rewrite searchId_element in Hnone.
    unfold withChildNodes. cbn [tagName attributes]. rewrite searchId_element.
    change (ownId id (mkElement t a (<[i := appendChildAt k parent child]> kids)))
      with (ownId id (mkElement t a kids)).
    destruct (ownId id (mkElement t a kids)); [discriminate|].
    apply searchChildren_None in Hnone.
    rewrite (searchChildren_insert _ _ _ _ Hnone (lookup_lt_Some _ _ _ Hk)).
    rewrite (IH k parentElem Hparent (Forall_lookup_1 _ _ _ _ Hnone Hk)).
    destruct (searchId id child); reflexivity.
Qed.

Lemma root_attach (document : Document) (parent : Path) (child : HTMLElement) :
  root (attach document parent child)
  = appendChildAt (root document) parent (ElementNode child).
Proof.
  unfold attach, root. destruct document as [e]. cbn [documentElement].
  destruct parent as [|i parent]; cbn [appendChildAt]; [reflexivity|].
  destruct (childNodes e !! i); reflexivity.
Qed.

(** On a page without an element of that ID, after [parent.appendChild]
    of a fragment [document.getElementById] answers the first element of
    the fragment with the ID, as a handle under the new child. *)
Lemma getElementById_attach (document : Document) (parent : Path)
  (parentElem child : HTMLElement) (id : string) :
  elementAt document parent = Some parentElem ->
  document_getElementById document id = None ->
  document_getElementById (attach document parent child) id
  = (fun r => parent ++ length (childNodes parentElem) :: r)
      <$> searchId id (ElementNode child).
Proof.
  intros Hparent Hnone. rewrite document_getElementById_searchId in *.
  rewrite root_attach. apply searchId_appendChildAt; [|exact Hnone].
  unfold elementAt in Hparent.
  destruct (nodeAt (root document) parent) as [[d|d|e]|]; try discriminate.
  now inversion Hparent.
Qed.

(** ** The filter button, built and found again *)

Lemma ownId_single (id v t : string) (kids : list Node) :
  ownId id (mkElement t [("id", v)] kids)
  = bool_decide (v = id) && negb (bool_decide (id = "")).
Proof. reflexivity. Qed.

Lemma searchId_text_only (id t text : string) (a : list (string * string)) :
  ownId id (mkElement t a [Text text]) = false ->
  searchId id (ElementNode (mkElement t a [Text text])) = None.
Proof. intros Hown. rewrite searchId_element, Hown. reflexivity. Qed.

(** The search for an ID in a tree of the filter button's shape. *)
Lemma searchId_filter_button (id idC idS idI tip text : string) (icon : Node) :
  searchId id
    (ElementNode
       (mkElement "span" [("id", idC)]
          [ElementNode
             (mkElement "paper-tooltip" [("class", "style-scope"); ("role", "tooltip")]
                [Text tip]);
           ElementNode
             (mkElement "div" []
                [icon;
                 ElementNode (mkElement "span" [] [Text text]);
                 ElementNode (mkElement "span" [("id", idS)] []);
                 ElementNode (mkElement "span" [("id", idI)] [])])]))
  = if bool_decide (idC = id) && negb (bool_decide (id = "")) then Some []
    else match searchId id icon with
         | Some r => Some (1 :: 0 :: r)
         | None =>
             if bool_decide (idS = id) && negb (bool_decide (id = "")) then Some [1; 2]
             else if bool_decide (idI = id) && negb (bool_decide (id = "")) then Some [1; 3]
                  else None
         end.
Proof.
  cbn. rewrite !ownId_single.
  replace (ownId id (mkElement "paper-tooltip"
                       [("class", "style-scope"); ("role", "tooltip")] [Text tip]))
    with false by reflexivity.
  destruct (bool_decide (idC = id) && negb (bool_decide (id = ""))); [reflexivity|].
  destruct (searchId id icon); [reflexivity|].
  destruct (bool_decide (idS = id) && negb (bool_decide (id = ""))); [reflexivity|].
  destruct (bool_decide (idI = id) && negb (bool_decide (id = ""))); reflexivity.
Qed.

Section FilterContainer.
Context {engine : SelectorEngine} {factory : ElementFactory} (Config : Config.t).
Context (getMessage : string -> string) (filterIcon : HTMLElement).

(** The tree [createYayFilterContainer] builds when no [createElement]
    throws. *)
Lemma createYayFilterContainer_made (built : FilterContainer) :
  DomManager.createYayFilterContainer Config getMessage filterIcon = Made built ->
  built
  = mkFilterContainer
      (mkElement "span"
         [("id", Config.(Config.dom).(Config.id).(Config.yayFilterContainer))]
         [ElementNode
            (mkElement "paper-tooltip" [("class", "style-scope"); ("role", "tooltip")]
               [Text (getMessage "filter_comments")]);
          ElementNode
            (mkElement "div" []
               [ElementNode filterIcon;
                ElementNode (mkElement "span" [] [Text (getMessage "filter")]);
                ElementNode
                  (mkElement "span"
                     [("id", Config.(Config.dom).(Config.id).(Config.yayFilterStatus))] []);
                ElementNode
                  (mkElement "span"
                     [("id", Config.(Config.dom).(Config.id).(Config.yayFilterInfo))] [])])])
      [1; 2] [1; 3] [mkListener [1] "click" false].
Proof.
  unfold DomManager.createYayFilterContainer, DomManager.createElementWithText,
    createElement.
  destruct (validName "span"); [|discriminate].
  destruct (validName "paper-tooltip"); [|discriminate].
  destruct (validName "div"); [|discriminate].
  cbn. intros Hmade. inversion Hmade. reflexivity.
Qed.

(** X14. The filter button is found again by the IDs it was built with.
    Let [createYayFilterContainer] return, and let its container be appended
    to any element of a page that has no element with one of the three
    configured IDs, the IDs being non-empty and distinct and the icon
    holding no element with the status or info ID.  Then
    [findYayFilterContainer], [findYayFilterStatus] and [findYayFilterInfo]
    answer exactly the three elements the builder returned, and
    [getYayFilterContainer] returns the container once the browser reads
    [#] and its ID as an ID selector. *)
Theorem filter_container_found_again (document : Document) (parent : Path)
  (parentElem : HTMLElement) (built : FilterContainer) :
  let idC := Config.(Config.dom).(Config.id).(Config.yayFilterContainer) in
  let idS := Config.(Config.dom).(Config.id).(Config.yayFilterStatus) in
  let idI := Config.(Config.dom).(Config.id).(Config.yayFilterInfo) in
  DomManager.createYayFilterContainer Config getMessage filterIcon = Made built ->
  elementAt document parent = Some parentElem ->
  idC <> "" /\ idS <> "" /\ idI <> "" /\ idC <> idS /\ idC <> idI /\ idS <> idI ->
  document_getElementById document idC = None /\
  document_getElementById document idS = None /\
  document_getElementById document idI = None ->
  document_getElementById (mkDocument filterIcon) idS = None /\
  document_getElementById (mkDocument filterIcon) idI = None ->
  let page := attach document parent (container built) in
  let here := parent ++ [length (childNodes parentElem)] in
  DomManager.findYayFilterContainer Config page = Ok (Some here) /\
  DomManager.findYayFilterStatus Config page = Ok (Some (here ++ filterStatus built)) /\
  DomManager.findYayFilterInfo Config page = Ok (Some (here ++ filterInfo built)) /\
  (idSelector engine idC -> DomManager.getYayFilterContainer Config page = Ok here).
Proof.
  cbv zeta.
  intros Hmade Hparent (HC & HS & HI & HCS & HCI & HSI) (HdC & HdS & HdI) (HiS & HiI).
  apply createYayFilterContainer_made in Hmade. subst built.
  cbn [container filterStatus filterInfo].
  rewrite document_getElementById_searchId in HiS, HiI.
  change (root (mkDocument filterIcon)) with (ElementNode filterIcon) in HiS, HiI.
  unfold DomManager.findYayFilterContainer, DomManager.findYayFilterStatus,
    DomManager.findYayFilterInfo.
  rewrite !(getElementById_attach _ _ _ _ _ Hparent) by assumption.
  rewrite !searchId_filter_button, HiS, HiI.
  rewrite !(bool_decide_eq_true_2 (_ = _) eq_refl).
  rewrite (bool_decide_eq_false_2 _ HC), (bool_decide_eq_false_2 _ HS),
    (bool_decide_eq_false_2 _ HI), (bool_decide_eq_false_2 _ HCS),
    (bool_decide_eq_false_2 _ HCI), (bool_decide_eq_false_2 _ HSI).
  cbn [andb negb fmap option_fmap option_map].
  rewrite <- !app_assoc. cbn [app].
  split; [reflexivity|]. split; [reflexivity|]. split; [reflexivity|].
  intros Hid. unfold DomManager.getYayFilterContainer.
  rewrite (getElementById_by_id _ _ Hid).
  rewrite (getElementById_attach _ _ _ _ _ Hparent) by assumption.
  rewrite searchId_filter_button.
  rewrite !(bool_decide_eq_true_2 (_ = _) eq_refl).
  rewrite (bool_decide_eq_false_2 _ HC). reflexivity.
Qed.

End FilterContainer.

Lemma filter_container_found_again_witness :
  @DomManager.createYayFilterContainer simpleFactory sampleConfig sampleMessages sampleIcon
  = Made sampleButton /\
  elementAt loadingPage [1]
  = Some (mkElement "body" [] [ElementNode (mkElement "div" [("id", "player")] [])]) /\
  DomManager.findYayFilterContainer sampleConfig
    (attach loadingPage [1] (container sampleButton)) = Ok (Some [1; 1]) /\
  DomManager.findYayFilterStatus sampleConfig
    (attach loadingPage [1] (container sampleButton)) = Ok (Some [1; 1; 1; 2]) /\
  DomManager.findYayFilterInfo sampleConfig
    (attach loadingPage [1] (container sampleButton)) = Ok (Some [1; 1; 1; 3]) /\
  @DomManager.getYayFilterContainer simpleEngine sampleConfig
    (attach loadingPage [1] (container sampleButton)) = Ok [1; 1].
Proof.
  split; [reflexivity|]. split; [reflexivity|].
  destruct (@filter_container_found_again simpleEngine simpleFactory sampleConfig
              sampleMessages sampleIcon loadingPage [1]
              (mkElement "body" [] [ElementNode (mkElement "div" [("id", "player")] [])])
              sampleButton)
    as (Hcontainer & Hstatus & Hinfo & Hget).
  - reflexivity.
  - reflexivity.
  - repeat split; discriminate.
  - repeat split.
  - repeat split.
  - split; [exact Hcontainer|]. split; [exact Hstatus|]. split; [exact Hinfo|].
    apply Hget, simpleEngine_idSelector. reflexivity.
Defined.
